(** * Orchestration shell of the medical-diagnostics agents

  A shallow embedding of [Utils/Agents.py] and [Main.py]: the prompt table,
  the two agent classes, the response schema with the validation that
  the output parser runs on it, and [main] as a function from the
  environment of one run to the trace of what that run did. *)

From Stdlib Require Import ZArith Lia Permutation Ascii DecimalString.
From stdpp Require Import gmap strings list.

#[local] Set Warnings "-register-all".

(** ** Exceptions *)

(** An exception, as the program sees one: the [KeyError] of a dict lookup
    with the key that was missing, or any other instance of [Exception],
    with the text [str(e)] gives for it. *)
Inductive exn : Type :=
| KeyError (key : string)
| Exception (msg : string).

(** ** JSON *)

(** A decoded JSON document, as [json.loads] hands it to the parser.
  Numbers are the integers. *)
Inductive json : Type :=
| JNull
| JBool (b : bool)
| JInt (n : Z)
| JStr (s : string)
| JList (items : list json)
| JObj (members : list (string * json)).

(** ** What is taken from the runtime and the libraries *)

(** Strings are the UTF-8 bytes of a Python [str]. On ASCII strings
    [str.lower] and [repr] are written out below; what they give for a
    string with a character outside ASCII depends on tables of Unicode and
    is taken as given, as are the exception [ChatOpenAI(...)] raises when
    [OPENAI_API_KEY] is not in the environment, the one it raises when the
    variable is there and empty ([None] for a client that takes the empty
    key), and the exception of the output parser for a reply it does not
    accept. *)
Class Libraries : Type := {
  lower_non_ascii : string → string;
  repr_non_ascii : string → string;
  missing_key_error : exn;
  empty_key_error : option exn;
  parser_error : json → exn
}.

(** ** Python strings *)

Module PyStr.

Definition is_ascii_char (c : Ascii.ascii) : bool :=
  (Ascii.N_of_ascii c <? 128)%N.

Fixpoint is_ascii (s : string) : bool :=
  match s with
  | EmptyString => true
  | String c s' => is_ascii_char c && is_ascii s'
  end.

(** One ASCII character of [str.lower()]: the letters A-Z move down by 32,
    every other character is kept. *)
Definition lower_ascii (c : Ascii.ascii) : Ascii.ascii :=
  let n := Ascii.N_of_ascii c in
  if ((65 <=? n) && (n <=? 90))%N then Ascii.ascii_of_N (n + 32) else c.

Fixpoint ascii_lower (s : string) : string :=
  match s with
  | EmptyString => EmptyString
  | String c s' => String (lower_ascii c) (ascii_lower s')
  end.

(** [c in s] for a character. *)
Fixpoint has_char (c : Ascii.ascii) (s : string) : bool :=
  match s with
  | EmptyString => false
  | String c' s' => Ascii.eqb c' c || has_char c s'
  end.

Definition backslash : Ascii.ascii := Ascii.ascii_of_nat 92.
Definition double_quote : Ascii.ascii := Ascii.ascii_of_nat 34.
Definition single_quote : Ascii.ascii := Ascii.ascii_of_nat 39.

Definition hex_digit (n : N) : Ascii.ascii :=
  Ascii.ascii_of_N (if (n <? 10)%N then 48 + n else 87 + n).

(** One ASCII character inside [repr(s)], between quotes [quote]. *)
Definition repr_char (quote c : Ascii.ascii) : string :=
  let n := Ascii.N_of_ascii c in
  if Ascii.eqb c backslash then String backslash (String backslash EmptyString)
  else if Ascii.eqb c quote then String backslash (String c EmptyString)
  else if (n =? 9)%N then String backslash "t"
  else if (n =? 10)%N then String backslash "n"
  else if (n =? 13)%N then String backslash "r"
  else if ((n <? 32) || (n =? 127))%N then
    String backslash
      (String "x" (String (hex_digit (n / 16)) (String (hex_digit (n mod 16))
         EmptyString)))
  else String c EmptyString.

Fixpoint repr_chars (quote : Ascii.ascii) (s : string) : string :=
  match s with
  | EmptyString => EmptyString
  | String c s' => repr_char quote c +:+ repr_chars quote s'
  end.

(** The quotes of [repr(s)]: double when [s] has a single quote and no
    double quote, single otherwise. *)
Definition repr_quote (s : string) : Ascii.ascii :=
  if has_char single_quote s && negb (has_char double_quote s)
  then double_quote else single_quote.

Definition ascii_repr (s : string) : string :=
  let quote := repr_quote s in
  String quote (repr_chars quote s +:+ String quote EmptyString).

Section WithLibraries.
Context `{!Libraries}.

(** [s.lower()]. *)
Definition lower (s : string) : string :=
  if is_ascii s then ascii_lower s else lower_non_ascii s.

(** [repr(s)]. *)
Definition repr (s : string) : string :=
  if is_ascii s then ascii_repr s else repr_non_ascii s.

End WithLibraries.

(** A byte that goes on a character of more than one byte. *)
Definition is_continuation (c : Ascii.ascii) : bool :=
  let n := Ascii.N_of_ascii c in ((128 <=? n) && (n <? 192))%N.

(** The characters of a string, each with its bytes. *)
Fixpoint codepoints (s : string) : list string :=
  match s with
  | EmptyString => []
  | String c s' =>
      let rest := codepoints s' in
      let continued :=
        match s' with
        | String c' _ => is_continuation c'
        | EmptyString => false
        end in
      match continued, rest with
      | true, cp :: rest' => String c cp :: rest'
      | _, _ => String c EmptyString :: rest
      end
  end.

(** [needle in hay]. *)
Fixpoint contains (needle hay : string) : bool :=
  String.prefix needle hay ||
  match hay with
  | EmptyString => false
  | String _ hay' => contains needle hay'
  end.

(** [s.split(sep)] for a separator of one character. *)
Fixpoint split (sep : Ascii.ascii) (s : string) : list string :=
  match s with
  | EmptyString => [EmptyString]
  | String c s' =>
      if Ascii.eqb c sep then EmptyString :: split sep s'
      else match split sep s' with
           | part :: parts => String c part :: parts
           | [] => [String c EmptyString]
           end
  end.

(** [str(n)] for an int. *)
Definition str_int (n : Z) : string := NilEmpty.string_of_int (Z.to_int n).

(** [str(b)] for a bool. *)
Definition str_bool (b : bool) : string := if b then "True" else "False".

(** ["-" * n] and the like. *)
Fixpoint repeat_str (s : string) (n : nat) : string :=
  match n with
  | O => ""
  | S n' => s +:+ repeat_str s n'
  end.

(** [os.path.basename] on a POSIX path: what follows the last slash. *)
Fixpoint basename (p : string) : string :=
  match p with
  | EmptyString => EmptyString
  | String c p' =>
      if contains "/" p' then basename p'
      else if Ascii.eqb c "/"%char then p' else p
  end.

Definition ends_with_slash (p : string) : bool :=
  match String.rev p with
  | String c _ => Ascii.eqb c "/"%char
  | EmptyString => false
  end.

(** [os.path.join(a, b)] on POSIX paths. *)
Definition path_join (a b : string) : string :=
  if String.prefix "/" b then b
  else if (String.eqb a "" || ends_with_slash a)%bool then a +:+ b
  else a +:+ "/" +:+ b.

End PyStr.

Section StrExn.
Context `{!Libraries}.

(** [str(e)], as the f-strings of [main] print an exception: for a
    [KeyError] the [repr] of its key. *)
Definition str_exn (e : exn) : string :=
  match e with
  | KeyError key => PyStr.repr key
  | Exception msg => msg
  end.

End StrExn.

(** ** Agents.py *)

Module Agents.

Definition cardiologist_prompt : string := "
        Act as a cardiologist. You will receive a medical report of a patient.
        Task: Review the patient's cardiac workup, including ECG, blood tests, Holter monitor results, and echocardiogram.
        Focus: Determine if there are any subtle signs of cardiac issues that could explain the patient’s symptoms. Rule out any underlying heart conditions, such as arrhythmias or structural abnormalities.
        Output: Provide a concise summary of your findings and recommended next steps.
        Medical Report: {medical_report}
    ".

Definition psychologist_prompt : string := "
        Act as a psychologist. You will receive a patient's report.
        Task: Review the patient's report and provide a psychological assessment.
        Focus: Identify any potential mental health issues, such as anxiety, depression, or trauma, that may be affecting the patient's well-being.
        Output: Provide a concise summary of your findings and recommended next steps.
        Patient's Report: {medical_report}
    ".

Definition pulmonologist_prompt : string := "
        Act like a pulmonologist. You will receive a patient's report.
        Task: Review the patient's report and provide a pulmonary assessment.
        Focus: Identify any potential respiratory issues, such as asthma, COPD, or lung infections, that may be affecting the patient's breathing.
        Output: Provide a concise summary of your findings and recommended next steps.
        Patient's Report: {medical_report}
    ".

Definition multidisciplinary_team_prompt : string := "
        Act like a multidisciplinary team of healthcare professionals.
        You will receive reports from a Cardiologist, Psychologist, and Pulmonologist.
        Task: Review the specialist reports, analyze them, and come up with a list of 3 possible health issues for the patient.
        For each issue, provide a clear rationale based on the provided reports. One issue must be marked as the primary diagnosis.

        Cardiologist Report: {cardiologist_report}
        Psychologist Report: {psychologist_report}
        Pulmonologist Report: {pulmonologist_report}
        
        {format_instructions}
    ".

(** The module-level dict [PROMPTS]. *)
Definition PROMPTS : gmap string string :=
  <["multidisciplinary_team" := multidisciplinary_team_prompt]>
  (<["pulmonologist" := pulmonologist_prompt]>
  (<["psychologist" := psychologist_prompt]>
  (<["cardiologist" := cardiologist_prompt]> ∅))).

Definition PROMPTS_keys : list string :=
  ["cardiologist"; "psychologist"; "pulmonologist"; "multidisciplinary_team"].

(** [PROMPTS[key]]: a missing key raises [KeyError]. *)
Definition PROMPTS_getitem (key : string) : exn + string :=
  match PROMPTS !! key with
  | Some text => inr text
  | None => inl (KeyError key)
  end.


(** A Python value is false when it is [None] or the empty string. *)
Definition falsy (v : option string) : bool :=
  match v with
  | None => true
  | Some s => String.eqb s ""
  end.

(** *** The response schema and its validation *)

(** The two classes declare their fields and nothing else: no validator of
    their own, no bound on the length of [analysis]. What checks a reply
    is the validation their base class [BaseModel] (of
    [langchain_core.pydantic_v1]) derives from these declarations; its
    rules for a [str] field, a [bool] field, a [list] field and a field
    that is a model are written out below for the values a decoded JSON
    document can hold. The first error makes the whole validation fail. *)

(** [class HealthIssue(BaseModel)]. *)
Record HealthIssue : Type := mkHealthIssue {
  diagnosis : string;
  rationale : string;
  is_primary : bool
}.

(** [class FinalAnalysis(BaseModel)]. *)
Record FinalAnalysis : Type := mkFinalAnalysis {
  analysis : list HealthIssue
}.

(** [dict(pairs)]: a later pair with the same key replaces an earlier
    one. *)
Definition py_dict (pairs : list (string * json)) : gmap string json :=
  list_to_map (reverse pairs).

(** The keys of a decoded object, each once, in the order in which they
    first occur. *)
Fixpoint dict_keys (seen : list string) (members : list (string * json))
  : list string :=
  match members with
  | [] => []
  | (k, _) :: members' =>
      if bool_decide (k ∈ seen) then dict_keys seen members'
      else k :: dict_keys (k :: seen) members'
  end.

(** One element of the iterable given to [dict(...)], which must itself
    be an iterable of two things: a list of two elements, a string of two
    characters, or an object with two keys (iterating an object gives its
    keys). The first of the two is the key; a key that is not a string
    cannot be passed on as a keyword argument. *)
Definition pair_of (item : json) : option (string * json) :=
  match item with
  | JList [JStr k; v] => Some (k, v)
  | JStr s =>
      match PyStr.codepoints s with
      | [a; b] => Some (a, JStr b)
      | _ => None
      end
  | JObj members =>
      match dict_keys [] members with
      | [k1; k2] => Some (k1, JStr k2)
      | _ => None
      end
  | _ => None
  end.

(** What a model class accepts as its input: a dict, or a value that
    [dict(...)] turns into one. *)
Definition as_dict (v : json) : option (gmap string json) :=
  match v with
  | JObj members => Some (py_dict members)
  | JList items => py_dict <$> mapM pair_of items
  | JStr EmptyString => Some ∅
  | _ => None
  end.

(** A field declared [str]. *)
Definition str_validator (v : json) : option string :=
  match v with
  | JStr s => Some s
  | JInt n => Some (PyStr.str_int n)
  | JBool b => Some (PyStr.str_bool b)
  | _ => None
  end.

Definition BOOL_FALSE : list string := ["0"; "off"; "f"; "false"; "n"; "no"].
Definition BOOL_TRUE : list string := ["1"; "on"; "t"; "true"; "y"; "yes"].

(** The client object. *)
Record ChatOpenAI : Type := mkChatOpenAI {
  temperature : Z;
  model_name : string
}.

Record SpecialistAgent : Type := mkSpecialistAgent {
  role : string;
  model : ChatOpenAI;
  prompt_template : string
}.

Record MultidisciplinaryTeam : Type := mkMultidisciplinaryTeam {
  team_model : ChatOpenAI;
  team_prompt_template : string
}.

Section WithLibraries.
Context `{!Libraries}.

(** A field declared [bool]. *)
Definition bool_validator (v : json) : option bool :=
  match v with
  | JBool b => Some b
  | JInt n =>
      if (n =? 1)%Z then Some true
      else if (n =? 0)%Z then Some false
      else None
  | JStr s =>
      let s' := PyStr.lower s in
      if bool_decide (s' ∈ BOOL_TRUE) then Some true
      else if bool_decide (s' ∈ BOOL_FALSE) then Some false
      else None
  | _ => None
  end.

(** A required field: the key must be present and its value must pass
    the field's validator ([None] never does). *)
Definition required {A} (d : gmap string json) (key : string)
    (validator : json → option A) : option A :=
  d !! key ≫= validator.

(** Validation of one list element against [HealthIssue]; keys the
    class does not declare are ignored. *)
Definition HealthIssue_validate (v : json) : option HealthIssue :=
  d ← as_dict v;
  diagnosis ← required d "diagnosis" str_validator;
  rationale ← required d "rationale" str_validator;
  is_primary ← required d "is_primary" bool_validator;
  Some (mkHealthIssue diagnosis rationale is_primary).

(** A field declared [list[...]]: only a list passes. *)
Definition list_validator {A} (item : json → option A) (v : json)
  : option (list A) :=
  match v with
  | JList items => mapM item items
  | _ => None
  end.

(** [FinalAnalysis.parse_obj]. *)
Definition FinalAnalysis_parse_obj (obj : json) : option FinalAnalysis :=
  d ← as_dict obj;
  analysis ← required d "analysis" (list_validator HealthIssue_validate);
  Some (mkFinalAnalysis analysis).

(** [PydanticOutputParser(pydantic_object=FinalAnalysis).parse] on the
    decoded document: a document that does not validate raises. *)
Definition parser_parse (obj : json) : exn + FinalAnalysis :=
  match FinalAnalysis_parse_obj obj with
  | Some fa => inr fa
  | None => inl (parser_error obj)
  end.

(** *** Agent classes *)

(** What the client raises for the value of [OPENAI_API_KEY], [None]
    when it is built. *)
Definition client_error (api_key : option string) : option exn :=
  match api_key with
  | None => Some missing_key_error
  | Some key => if String.eqb key "" then empty_key_error else None
  end.

(** [ChatOpenAI(temperature=..., model=...)]: the client is given no key
    and looks for [OPENAI_API_KEY] in the environment. Building the client
    performs no call. *)
Definition ChatOpenAI_init (getenv : string → option string)
    (temperature : Z) (model_name : string) : exn + ChatOpenAI :=
  match client_error (getenv "OPENAI_API_KEY") with
  | Some e => inl e
  | None => inr (mkChatOpenAI temperature model_name)
  end.

(** [SpecialistAgent.__init__], in the environment [getenv]: the client
    first, then the lookup of the template. *)
Definition SpecialistAgent_init (getenv : string → option string)
    (role : string) (model_name : string) : exn + SpecialistAgent :=
  match ChatOpenAI_init getenv 0 model_name with
  | inl e => inl e
  | inr model =>
      match PROMPTS_getitem (PyStr.lower role) with
      | inl e => inl e
      | inr prompt_text => inr (mkSpecialistAgent role model prompt_text)
      end
  end.

(** [MultidisciplinaryTeam.__init__]. *)
Definition MultidisciplinaryTeam_init (getenv : string → option string)
    (model_name : string) : exn + MultidisciplinaryTeam :=
  match ChatOpenAI_init getenv 0 model_name with
  | inl e => inl e
  | inr model =>
      match PROMPTS_getitem "multidisciplinary_team" with
      | inl e => inl e
      | inr prompt_text => inr (mkMultidisciplinaryTeam model prompt_text)
      end
  end.

End WithLibraries.

End Agents.
(** ** Main.py *)

Module Main.
Import Agents.

(** *** What a run does: events, outcomes and the monad threading them *)

(** The effects of [main] that the statements below speak about, in the
    order in which they happen. [EvConstruct] is a call of
    [SpecialistAgent(role=...)], [EvSubmit] the hand-over of [agent.run] to
    the pool, [EvSynthesis] the call of [team_agent.run]. Each of the last
    two is one invocation of a chain; how many requests the client sends
    for it is its own matter. *)

Inductive event : Type :=
| EvMakedirs (dir : string)
| EvLoadDotenv
| EvLog (level msg : string)
| EvConstruct (role : string)
| EvSubmit (future : nat) (role template input : string)
| EvSynthesis (cardiologist_report psychologist_report pulmonologist_report : string)
| EvWrite (path text : string).

Inductive outcome (A : Type) : Type :=
| Ret (a : A)
| SysExit (code : Z)
| Raise (e : exn).
Arguments Ret {A} a.
Arguments SysExit {A} code.
Arguments Raise {A} e.

Definition M (A : Type) : Type := list event → list event * outcome A.

#[export] Instance M_ret : MRet M := λ A a t, (t, Ret a).

#[export] Instance M_bind : MBind M := λ A B f m t,
  match m t with
  | (t', Ret a) => f a t'
  | (t', SysExit code) => (t', SysExit code)
  | (t', Raise e) => (t', Raise e)
  end.

Definition emit (e : event) : M unit := λ t, (t ++ [e], Ret tt).
Definition sys_exit {A} (code : Z) : M A := λ t, (t, SysExit code).
Definition raise {A} (e : exn) : M A := λ t, (t, Raise e).

Definition lift_exn {A} (r : exn + A) : M A :=
  match r with
  | inl e => raise e
  | inr a => mret a
  end.

(** [try: m except Exception as e: handler e]; [sys.exit] is not an
    [Exception] and passes through. *)
Definition try_except {A} (m : M A) (handler : exn → M A) : M A := λ t,
  match m t with
  | (t', Raise e) => handler e t'
  | r => r
  end.

Definition logging_info (msg : string) : M unit := emit (EvLog "INFO" msg).
Definition logging_error (msg : string) : M unit := emit (EvLog "ERROR" msg).
Definition logging_critical (msg : string) : M unit := emit (EvLog "CRITICAL" msg).

(** *** The environment of one run *)

Record World : Type := mkWorld {
  (** [os.getenv] once [load_dotenv] has run *)
  getenv : string → option string;
  (** the content of a file, [None] when there is no such file *)
  read_file : string → option string;
  (** what [chain.invoke] of a specialist gives for a template and a
      report: the content of the reply, or the exception of the call *)
  chain_invoke : string → string → exn + string;
  (** the futures in the order in which they complete *)
  completion_order : list nat;
  (** the decoded reply of the model to the synthesis prompt, or the
      exception of the call *)
  team_invoke : string → string → string → exn + json;
  (** the exception of opening or writing a file with a text, [None] when
      the text is written *)
  write_file : string → string → option exn
}.

Definition NL : string := String (Ascii.ascii_of_nat 10) EmptyString.

(** [setup_logging], for an output directory that can be created and a
    log file that can be opened in it: [os.makedirs] and the handlers of
    [logging.basicConfig] succeed. The trace has the lines that are logged,
    not the file they go to; a run in which the directory cannot be created
    (an empty [output_dir], for one) ends at [os.makedirs] with its
    exception and is not a run of this model. *)
Definition setup_logging (output_dir : string) : M string :=
  let log_dir := output_dir in
  emit (EvMakedirs log_dir);;
  let log_file := PyStr.path_join log_dir "analysis.log" in
  mret log_file.

Section WithLibraries.
Context `{!Libraries}.

(** *** Step 2: the specialists *)

Definition specialist_roles : list string :=
  ["Cardiologist"; "Psychologist"; "Pulmonologist"].

(** [d[k] = v] on a dict that remembers the order of insertion. *)
Fixpoint odict_set {V} (d : list (string * V)) (k : string) (v : V)
  : list (string * V) :=
  match d with
  | [] => [(k, v)]
  | (k', v') :: d' =>
      if String.eqb k' k then (k', v) :: d' else (k', v') :: odict_set d' k v
  end.

(** [{role: SpecialistAgent(role=role) for role in roles}]. *)
Fixpoint build_agents (w : World) (roles : list string)
    (agents : list (string * SpecialistAgent))
  : M (list (string * SpecialistAgent)) :=
  match roles with
  | [] => mret agents
  | role :: roles' =>
      emit (EvConstruct role);;
      agent ← lift_exn (SpecialistAgent_init (getenv w) role "gpt-4o");
      build_agents w roles' (odict_set agents role agent)
  end.

(** The pool: each future with the settled result of its call. *)
Definition executor : Type := gmap nat (exn + string).

(** [SpecialistAgent.run] in a worker of the pool: what [chain.invoke]
    settles to, once the client has sent its request as many times as it
    is set to. *)
Definition agent_run (w : World) (agent : SpecialistAgent)
    (medical_report : string) : exn + string :=
  chain_invoke w (prompt_template agent) medical_report.

(** [{executor.submit(agent.run, medical_report): role for role, agent in
    agents.items()}]. *)
Fixpoint submit_all (w : World) (medical_report : string)
    (items : list (string * SpecialistAgent))
    (pool : executor) (future_to_role : gmap nat string)
  : M (executor * gmap nat string) :=
  match items with
  | [] => mret (pool, future_to_role)
  | (role, agent) :: items' =>
      let future := size pool in
      emit (EvSubmit future role (prompt_template agent) medical_report);;
      submit_all w medical_report items'
        (<[future := agent_run w agent medical_report]> pool)
        (<[future := role]> future_to_role)
  end.

Definition placeholder (e : exn) : string :=
  "AGENT FAILED TO PRODUCE REPORT. REASON: " +:+ str_exn e.

(** The body of [for future in as_completed(future_to_role)]:
    [future.result()] returns the report or raises the exception of the
    call, which the [except] branch turns into a placeholder. A future that
    is not of this pool is never yielded; the loop passes over it. *)
Definition collect_one (pool : executor) (future_to_role : gmap nat string)
    (responses : gmap string string) (future : nat)
  : M (gmap string string) :=
  match future_to_role !! future, pool !! future with
  | Some role, Some (inr report) =>
      let responses := <[role := report]> responses in
      logging_info ("✓ Report received from " +:+ role);;
      mret responses
  | Some role, Some (inl e) =>
      logging_error ("✗ " +:+ role +:+ " agent failed: " +:+ str_exn e);;
      mret (<[role := placeholder e]> responses)
  | _, _ => mret responses
  end.

Fixpoint collect (pool : executor) (future_to_role : gmap nat string)
    (order : list nat) (responses : gmap string string)
  : M (gmap string string) :=
  match order with
  | [] => mret responses
  | future :: order' =>
      responses' ← collect_one pool future_to_role responses future;
      collect pool future_to_role order' responses'
  end.

(** *** Step 3: the synthesis *)

(** [MultidisciplinaryTeam.run]: one call of the model, then the parser. *)
Definition team_run (w : World) (team : MultidisciplinaryTeam)
    (cardiologist_report psychologist_report pulmonologist_report : string)
  : M FinalAnalysis :=
  emit (EvSynthesis cardiologist_report psychologist_report pulmonologist_report);;
  reply ← lift_exn (team_invoke w cardiologist_report psychologist_report
                      pulmonologist_report);
  lift_exn (parser_parse reply).

(** [d.get(key, default)]. *)
Definition dict_get (d : gmap string string) (key default : string) : string :=
  match d !! key with
  | Some v => v
  | None => default
  end.

(** *** Step 4: the report *)

(** [False <= True] and every bool is below itself. *)
Definition key_le (a b : bool) : bool := implb a b.

Fixpoint insert_by {A} (key : A → bool) (x : A) (l : list A) : list A :=
  match l with
  | [] => [x]
  | y :: l' =>
      if key_le (key x) (key y) then x :: l else y :: insert_by key x l'
  end.

(** [sorted(l, key=key)] for a key that is a bool. The sort of Python is
    stable; so is this insertion sort, in which an element moves in
    front of the elements after it whose key is not smaller. *)
Fixpoint sorted {A} (l : list A) (key : A → bool) : list A :=
  match l with
  | [] => []
  | x :: l' => insert_by key x (sorted l' key)
  end.

Definition tag (issue : HealthIssue) : string :=
  if is_primary issue then "Primary Diagnosis" else "Differential Diagnosis".

Definition header_line (issue : HealthIssue) : string :=
  "**" +:+ tag issue +:+ ": " +:+ diagnosis issue +:+ "**" +:+ NL.

Definition rationale_line (issue : HealthIssue) : string :=
  "   - **Rationale:** " +:+ rationale issue +:+ NL +:+ NL.

Definition report_title : string :=
  "### Final Multidisciplinary Team Analysis ###" +:+ NL +:+ NL.

(** The body of the [for issue in sorted(...)] loop: two [+=]. *)
Definition add_issue (report_text : string) (issue : HealthIssue) : string :=
  let report_text := report_text +:+ header_line issue in
  report_text +:+ rationale_line issue.

Definition format_report (final_analysis : FinalAnalysis) : string :=
  fold_left add_issue
    (sorted (analysis final_analysis) (λ x, negb (is_primary x)))
    report_title.

(** *** [main], step by step *)

(** 1. Setup and input validation. [read_file] is [Some] for a file that
    is opened, read and decoded, and [None] for [FileNotFoundError], the
    one exception the code handles; a run in which [open] or [read] raises
    another exception, which the code lets through, is not a run of this
    model. *)
Definition load_input (w : World) (report_path : string) : M string :=
  emit EvLoadDotenv;;
  (if falsy (getenv w "OPENAI_API_KEY") then
     logging_error "FATAL: OPENAI_API_KEY not found in .env file. Please create one.";;
     sys_exit 1
   else mret tt);;
  match read_file w report_path with
  | Some text =>
      logging_info ("Successfully loaded report: " +:+ PyStr.basename report_path);;
      mret text
  | None =>
      logging_error ("FATAL: Input file not found at '" +:+ report_path +:+ "'");;
      sys_exit 1
  end.

(** 2. Initialize and run the specialist agents concurrently. *)
Definition run_specialists (w : World) (medical_report : string)
  : M (gmap string string) :=
  agents ← build_agents w specialist_roles [];
  '(pool, future_to_role) ← submit_all w medical_report agents ∅ ∅;
  logging_info ("Dispatching tasks to "
                +:+ PyStr.str_int (Z.of_nat (length specialist_roles))
                +:+ " specialist agents...");;
  collect pool future_to_role (completion_order w) ∅.

(** 3. Run the synthesis agent. *)
Definition run_synthesis (w : World) (responses : gmap string string)
  : M FinalAnalysis :=
  (if (size responses <? length specialist_roles)%nat then
     logging_critical "Could not proceed with final analysis as one or more specialist agents failed.";;
     sys_exit 1
   else mret tt);;
  logging_info "All specialist reports received. Running Multidisciplinary Team...";;
  try_except
    (team_agent ← lift_exn (MultidisciplinaryTeam_init (getenv w) "gpt-4o");
     team_run w team_agent
       (dict_get responses "Cardiologist" "N/A")
       (dict_get responses "Psychologist" "N/A")
       (dict_get responses "Pulmonologist" "N/A"))
    (λ e,
       logging_error ("FATAL: The Multidisciplinary Team agent failed: " +:+ str_exn e);;
       sys_exit 1).

(** 4. Format and save the output. *)
Definition save_output (w : World) (report_path output_dir log_file : string)
    (final_analysis : FinalAnalysis) : M unit :=
  let report_text := format_report final_analysis in
  let output_filename := "analysis_" +:+ PyStr.basename report_path in
  let output_path := PyStr.path_join output_dir output_filename in
  match write_file w output_path report_text with
  | Some e => raise e
  | None => emit (EvWrite output_path report_text)
  end;;
  logging_info (PyStr.repeat_str "-" 50);;
  logging_info ("🎉 Analysis complete! Final report saved to: " +:+ output_path);;
  logging_info ("📄 A detailed log of this run was saved to: " +:+ log_file);;
  logging_info (PyStr.repeat_str "-" 50).

Definition main (w : World) (report_path output_dir : string) : M unit :=
  log_file ← setup_logging output_dir;
  medical_report ← load_input w report_path;
  responses ← run_specialists w medical_report;
  final_analysis ← run_synthesis w responses;
  save_output w report_path output_dir log_file final_analysis.

(** A run from the empty trace: what happened, and how it ended. *)
Definition run_main (w : World) (report_path output_dir : string)
  : list event * outcome unit :=
  main w report_path output_dir [].

(** The exit status of the process. *)
Definition exit_code (o : outcome unit) : Z :=
  match o with
  | Ret _ => 0
  | SysExit code => code
  | Raise _ => 1
  end.

Definition is_construct (e : event) : bool :=
  match e with EvConstruct _ => true | _ => false end.

(** A [run] of an agent, specialist or team, handed to the model. *)
Definition is_remote_call (e : event) : bool :=
  match e with EvSubmit _ _ _ _ | EvSynthesis _ _ _ => true | _ => false end.

Definition is_synthesis (e : event) : bool :=
  match e with EvSynthesis _ _ _ => true | _ => false end.

End WithLibraries.

End Main.

(** * Vocabulary of the statements *)

Module Vocabulary.
Import Agents Main.

Section WithLibraries.
Context `{!Libraries}.

(** ** The report *)

Definition non_primary (x : HealthIssue) : bool := negb (is_primary x).

(** The text one entry adds to the report. *)
Definition issue_text (issue : HealthIssue) : string :=
  header_line issue +:+ rationale_line issue.

Fixpoint render (issues : list HealthIssue) : string :=
  match issues with
  | [] => ""
  | issue :: rest => issue_text issue +:+ render rest
  end.

(** The lines of a text, and whether a string has a line break. *)
Definition lines_of (text : string) : list string :=
  PyStr.split (Ascii.ascii_of_nat 10) text.

Definition has_newline (s : string) : bool :=
  PyStr.has_char (Ascii.ascii_of_nat 10) s.

(** ** Replies of the synthesis model *)

(** The document a well-formed entry is written as. *)
Definition issue_json (issue : HealthIssue) : json :=
  JObj [("diagnosis", JStr (diagnosis issue));
        ("rationale", JStr (rationale issue));
        ("is_primary", JBool (is_primary issue))].

Definition analysis_json (issues : list HealthIssue) : json :=
  JObj [("analysis", JList (map issue_json issues))].

(** A reply with two entries, both marked primary. *)
Definition two_primaries_reply : json :=
  JObj [("analysis", JList [
    JObj [("diagnosis", JStr "Panic disorder");
          ("rationale", JStr "Psychologist report");
          ("is_primary", JBool true)];
    JObj [("diagnosis", JStr "GERD");
          ("rationale", JStr "Cardiologist report");
          ("is_primary", JBool true)]])].

(** A reply whose second entry has no [is_primary]. *)
Definition missing_flag_reply : json :=
  JObj [("analysis", JList [
    JObj [("diagnosis", JStr "Panic disorder");
          ("rationale", JStr "Psychologist report");
          ("is_primary", JBool true)];
    JObj [("diagnosis", JStr "GERD");
          ("rationale", JStr "Cardiologist report")];
    JObj [("diagnosis", JStr "Asthma");
          ("rationale", JStr "Pulmonologist report");
          ("is_primary", JBool false)]])].

(** A reply whose [analysis] is an object. *)
Definition not_a_list_reply : json :=
  JObj [("analysis", JObj [("diagnosis", JStr "GERD")])].

(** ** The fan-out *)

(** What the collection loop stores for a settled call. *)
Definition entry_of (result : exn + string) : string :=
  match result with
  | inr report => report
  | inl e => placeholder e
  end.

(** What the collection loop logs for a settled call. *)
Definition log_of (role : string) (result : exn + string) : event :=
  match result with
  | inr _ => EvLog "INFO" ("✓ Report received from " +:+ role)
  | inl e => EvLog "ERROR" ("✗ " +:+ role +:+ " agent failed: " +:+ str_exn e)
  end.

(** The settled result of the call of one role: the agent is built, then
    run on the report. *)
Definition result_of (w : World) (medical_report role : string) : exn + string :=
  match SpecialistAgent_init (getenv w) role "gpt-4o" with
  | inr agent => agent_run w agent medical_report
  | inl e => inl e
  end.

(** The three agents of [main], the pool once they are submitted, and the
    role of each future. *)
Definition agents3 : list (string * SpecialistAgent) :=
  [("Cardiologist",
    mkSpecialistAgent "Cardiologist" (mkChatOpenAI 0 "gpt-4o") cardiologist_prompt);
   ("Psychologist",
    mkSpecialistAgent "Psychologist" (mkChatOpenAI 0 "gpt-4o") psychologist_prompt);
   ("Pulmonologist",
    mkSpecialistAgent "Pulmonologist" (mkChatOpenAI 0 "gpt-4o") pulmonologist_prompt)].

Definition pool3 (w : World) (medical_report : string) : executor :=
  <[2 := result_of w medical_report "Pulmonologist"]>
  (<[1 := result_of w medical_report "Psychologist"]>
  (<[0 := result_of w medical_report "Cardiologist"]> ∅)).

Definition future_to_role3 : gmap nat string :=
  <[2 := "Pulmonologist"]> (<[1 := "Psychologist"]> (<[0 := "Cardiologist"]> ∅)).

(** One pass of the collection loop, on the dict and on the log. *)
Definition record_one (pool : executor) (future_to_role : gmap nat string)
    (responses : gmap string string) (future : nat) : gmap string string :=
  match future_to_role !! future, pool !! future with
  | Some role, Some result => <[role := entry_of result]> responses
  | _, _ => responses
  end.

Definition log_one (pool : executor) (future_to_role : gmap nat string)
    (future : nat) : list event :=
  match future_to_role !! future, pool !! future with
  | Some role, Some result => [log_of role result]
  | _, _ => []
  end.

Definition logs_of (pool : executor) (future_to_role : gmap nat string)
    (order : list nat) : list event :=
  flat_map (log_one pool future_to_role) order.

(** The ResultSet once the three calls have settled. *)
Definition settled (w : World) (medical_report : string) : gmap string string :=
  <["Pulmonologist" := entry_of (result_of w medical_report "Pulmonologist")]>
  (<["Psychologist" := entry_of (result_of w medical_report "Psychologist")]>
  (<["Cardiologist" := entry_of (result_of w medical_report "Cardiologist")]> ∅)).

(** The events of step 2. *)
Definition fan_out_events (w : World) (medical_report : string) : list event :=
  [EvConstruct "Cardiologist"; EvConstruct "Psychologist";
   EvConstruct "Pulmonologist";
   EvSubmit 0 "Cardiologist" cardiologist_prompt medical_report;
   EvSubmit 1 "Psychologist" psychologist_prompt medical_report;
   EvSubmit 2 "Pulmonologist" pulmonologist_prompt medical_report;
   EvLog "INFO" "Dispatching tasks to 3 specialist agents..."]
  ++ logs_of (pool3 w medical_report) future_to_role3 (completion_order w).

(** The events of a run up to the end of step 1, when it succeeds. *)
Definition prelude_events (report_path output_dir : string) : list event :=
  [EvMakedirs output_dir; EvLoadDotenv;
   EvLog "INFO" ("Successfully loaded report: " +:+ PyStr.basename report_path)].

(** What step 3 passes to the synthesis call. *)
Definition synthesis_event (w : World) (medical_report : string) : event :=
  EvSynthesis (entry_of (result_of w medical_report "Cardiologist"))
              (entry_of (result_of w medical_report "Psychologist"))
              (entry_of (result_of w medical_report "Pulmonologist")).

(** The rest of [main] once the specialists have been collected. *)
Definition after_specialists (w : World) (report_path output_dir : string)
    (responses : gmap string string) : M unit :=
  final_analysis ← run_synthesis w responses;
  save_output w report_path output_dir
    (PyStr.path_join output_dir "analysis.log") final_analysis.

End WithLibraries.

(** ** Sample runs *)

(** The libraries of the sample runs. The strings of the samples are
    ASCII, so that the two functions on other strings are not reached. *)
Definition sample_libraries : Libraries := {|
  lower_non_ascii := λ s, s;
  repr_non_ascii := λ s, s;
  missing_key_error :=
    Exception "Did not find openai_api_key, please add an environment variable `OPENAI_API_KEY` which contains it, or pass `openai_api_key` as a named parameter.";
  empty_key_error :=
    Some (Exception "Did not find openai_api_key, please add an environment variable `OPENAI_API_KEY` which contains it, or pass `openai_api_key` as a named parameter.");
  parser_error := λ _, Exception "Failed to parse FinalAnalysis from completion"
|}.

Definition three_entries_reply : json :=
  JObj [("analysis", JList [
    JObj [("diagnosis", JStr "GERD");
          ("rationale", JStr "Cardiologist report");
          ("is_primary", JBool false)];
    JObj [("diagnosis", JStr "Panic disorder");
          ("rationale", JStr "Psychologist report");
          ("is_primary", JBool true)];
    JObj [("diagnosis", JStr "Asthma");
          ("rationale", JStr "Pulmonologist report");
          ("is_primary", JBool false)]])].

Definition three_entries : FinalAnalysis :=
  mkFinalAnalysis
    [mkHealthIssue "GERD" "Cardiologist report" false;
     mkHealthIssue "Panic disorder" "Psychologist report" true;
     mkHealthIssue "Asthma" "Pulmonologist report" false].

(** A run with the key set and the report in place, in which the call of
    the cardiologist raises and the two other calls succeed. *)
Definition cardiologist_fails : World := {|
  getenv := λ name, if String.eqb name "OPENAI_API_KEY" then Some "sk-test" else None;
  read_file := λ path,
    if String.eqb path "report.txt"
    then Some "Patient reports chest pain and shortness of breath"
    else None;
  chain_invoke := λ template medical_report,
    if String.eqb template cardiologist_prompt
    then inl (Exception "timeout")
    else inr "No acute findings.";
  completion_order := [2; 0; 1];
  team_invoke := λ _ _ _, inr three_entries_reply;
  write_file := λ _ _, None
|}.

(** The same run without the key. *)
Definition no_credential : World := {|
  getenv := λ _, None;
  read_file := read_file cardiologist_fails;
  chain_invoke := chain_invoke cardiologist_fails;
  completion_order := completion_order cardiologist_fails;
  team_invoke := team_invoke cardiologist_fails;
  write_file := write_file cardiologist_fails
|}.

(** ** Readings of the trace *)

Definition is_write (e : event) : bool :=
  match e with EvWrite _ _ => true | _ => false end.

Definition is_log (level : string) (e : event) : bool :=
  match e with EvLog level' _ => String.eqb level' level | _ => false end.

Definition raised (result : exn + string) : bool :=
  match result with inl _ => true | inr _ => false end.

(** A run in which the synthesis call raises. *)
Definition synthesis_fails : World := {|
  getenv := getenv cardiologist_fails;
  read_file := read_file cardiologist_fails;
  chain_invoke := λ _ _, inr "No acute findings.";
  completion_order := [0; 1; 2];
  team_invoke := λ _ _ _, inl (Exception "rate limit");
  write_file := write_file cardiologist_fails
|}.

(** A run in which the report cannot be written. *)
Definition write_fails : World := {|
  getenv := getenv cardiologist_fails;
  read_file := read_file cardiologist_fails;
  chain_invoke := chain_invoke cardiologist_fails;
  completion_order := completion_order cardiologist_fails;
  team_invoke := team_invoke cardiologist_fails;
  write_file := λ _ _, Some (Exception "[Errno 13] Permission denied")
|}.

(** The run of [cardiologist_fails] with the futures completing in the
    order of their submission. *)
Definition cardiologist_fails_in_order : World := {|
  getenv := getenv cardiologist_fails;
  read_file := read_file cardiologist_fails;
  chain_invoke := chain_invoke cardiologist_fails;
  completion_order := [0; 1; 2];
  team_invoke := team_invoke cardiologist_fails;
  write_file := write_file cardiologist_fails
|}.

(** A reply without [analysis]. *)
Definition no_analysis_reply : json :=
  JObj [("diagnoses", JList [])].

(** An analysis without a primary entry. *)
Definition no_primary : FinalAnalysis :=
  mkFinalAnalysis
    [mkHealthIssue "GERD" "Cardiologist report" false;
     mkHealthIssue "Asthma" "Pulmonologist report" false].

End Vocabulary.

(** * Properties *)

Import Vocabulary.

(** ** Strings *)

Section StringFacts.

Lemma append_assoc (a b c : string) : (a +:+ b) +:+ c = a +:+ (b +:+ c).
Proof. induction a as [|ch a IH]; [reflexivity | exact (f_equal (String ch) IH)]. Qed.

Lemma append_nil_r (a : string) : a +:+ "" = a.
Proof. induction a as [|ch a IH]; [reflexivity | exact (f_equal (String ch) IH)]. Qed.

Lemma prefix_refl (a : string) : String.prefix a a = true.
Proof.
  induction a as [|ch a IH]; simpl; [reflexivity|].
  destruct (Ascii.ascii_dec ch ch) as [_|ne]; [exact IH | now destruct ne].
Qed.

Lemma prefix_append (a b : string) : String.prefix a (a +:+ b) = true.
Proof.
  induction a as [|ch a IH].
  - change ("" +:+ b) with b. now destruct b.
  - change (String ch a +:+ b) with (String ch (a +:+ b)). simpl.
    destruct (Ascii.ascii_dec ch ch) as [_|ne]; [exact IH | now destruct ne].
Qed.

Lemma contains_prefix (needle hay : string) :
  String.prefix needle hay = true → PyStr.contains needle hay = true.
Proof. intros H. destruct hay; simpl in *; now rewrite H. Qed.

Lemma contains_append_r (pre needle : string) :
  PyStr.contains needle (pre +:+ needle) = true.
Proof.
  induction pre as [|ch pre IH].
  - change ("" +:+ needle) with needle.
    apply contains_prefix, prefix_refl.
  - change (String ch pre +:+ needle) with (String ch (pre +:+ needle)).
    simpl. rewrite IH. apply orb_true_r.
Qed.

Lemma has_char_append (c : Ascii.ascii) (a b : string) :
  PyStr.has_char c (a +:+ b) = PyStr.has_char c a || PyStr.has_char c b.
Proof.
  induction a as [|ch a IH]; [reflexivity|].
  change (String ch a +:+ b) with (String ch (a +:+ b)). simpl.
  now rewrite IH, orb_assoc.
Qed.

Lemma split_append (sep : Ascii.ascii) (a rest : string) :
  PyStr.has_char sep a = false →
  PyStr.split sep (a +:+ String sep rest) = a :: PyStr.split sep rest.
Proof.
  induction a as [|ch a IH]; intros Hsep.
  - change ("" +:+ String sep rest) with (String sep rest). simpl.
    now rewrite Ascii.eqb_refl.
  - change (String ch a +:+ String sep rest)
      with (String ch (a +:+ String sep rest)).
    simpl in Hsep. apply orb_false_iff in Hsep as [Hch Ha].
    simpl. now rewrite Hch, (IH Ha).
Qed.

End StringFacts.

(** ** The report formatter *)

Section Formatter.
Import Agents Main.

Lemma fold_add_issue (issues : list HealthIssue) (report_text : string) :
  fold_left add_issue issues report_text = report_text +:+ render issues.
Proof.
  revert report_text. induction issues as [|issue rest IH]; intros acc.
  - symmetry. apply append_nil_r.
  - change (fold_left add_issue (issue :: rest) acc)
      with (fold_left add_issue rest (add_issue acc issue)).
    rewrite IH. unfold add_issue, issue_text.
    change (render (issue :: rest))
      with ((header_line issue +:+ rationale_line issue) +:+ render rest).
    now rewrite !append_assoc.
Qed.

Lemma filter_length_Permutation {B} (f : B → bool) (l l' : list B) :
  Permutation l l' → length (List.filter f l) = length (List.filter f l').
Proof.
  induction 1 as [|x l l' _ IH|x y l|l l' l'' _ IH1 _ IH2]; simpl.
  - reflexivity.
  - destruct (f x); simpl; lia.
  - destruct (f x), (f y); reflexivity.
  - lia.
Qed.

Context {A : Type} (key : A → bool).

Lemma insert_by_low (x : A) (l : list A) :
  key x = false → insert_by key x l = x :: l.
Proof. intros Hx. destruct l as [|y l]; simpl; [|rewrite Hx]; reflexivity. Qed.

Lemma insert_by_high (x : A) (lo hi : list A) :
  key x = true →
  Forall (λ y, key y = false) lo →
  Forall (λ y, key y = true) hi →
  insert_by key x (lo ++ hi) = lo ++ x :: hi.
Proof.
  intros Hx Hlo Hhi. induction Hlo as [|y lo Hy _ IH]; simpl.
  - destruct Hhi as [|z hi Hz _]; simpl; [reflexivity|].
    now rewrite Hx, Hz.
  - now rewrite Hx, Hy, IH.
Qed.

(** A stable sort on a bool key: the elements with key [False] in their
    order, then those with key [True] in theirs. *)
Lemma sorted_stable (l : list A) :
  sorted l key
  = List.filter (λ y, negb (key y)) l ++ List.filter key l.
Proof.
  induction l as [|x l IH]; simpl; [reflexivity|].
  rewrite IH. destruct (key x) eqn:Hx; simpl.
  - apply insert_by_high; [exact Hx | |].
    + apply Forall_forall. intros y Hy.
      apply list_elem_of_In, filter_In in Hy. destruct Hy as [_ Hy].
      now apply negb_true_iff.
    + apply Forall_forall. intros y Hy.
      apply list_elem_of_In, filter_In in Hy. now destruct Hy.
  - now apply insert_by_low.
Qed.

Lemma filter_idem (f : A → bool) (l : list A) :
  List.filter f (List.filter f l) = List.filter f l.
Proof.
  induction l as [|x l IH]; simpl; [reflexivity|].
  destruct (f x) eqn:Hx; simpl; rewrite ?Hx, IH; reflexivity.
Qed.

Lemma filter_disjoint (f g : A → bool) (l : list A) :
  (∀ x, g x = true → f x = false) → List.filter f (List.filter g l) = [].
Proof.
  intros Hfg. induction l as [|x l IH]; simpl; [reflexivity|].
  destruct (g x) eqn:Hx; simpl; [rewrite (Hfg x Hx)|]; exact IH.
Qed.

(** Sorting what is sorted changes nothing. *)
Lemma sorted_idem (l : list A) : sorted (sorted l key) key = sorted l key.
Proof.
  rewrite (sorted_stable (sorted l key)), sorted_stable.
  rewrite !List.filter_app, !filter_idem.
  rewrite (filter_disjoint (λ y, negb (key y)) key),
          (filter_disjoint key (λ y, negb (key y))).
  - now rewrite app_nil_r.
  - intros x Hx. now apply negb_true_iff.
  - intros x Hx. now rewrite Hx.
Qed.

Lemma sorted_length (l : list A) : length (sorted l key) = length l.
Proof.
  rewrite sorted_stable, length_app.
  induction l as [|x l IH]; simpl; [reflexivity|].
  destruct (key x); simpl; lia.
Qed.

Lemma sorted_Permutation (l : list A) : Permutation (sorted l key) l.
Proof.
  rewrite sorted_stable.
  induction l as [|x l IH]; simpl; [constructor|].
  destruct (key x); simpl.
  - rewrite <- Permutation_middle. now constructor.
  - now constructor.
Qed.

End Formatter.

Section Report.
Import Agents Main.

Lemma primary_first (l : list HealthIssue) :
  sorted l (λ x, negb (is_primary x))
  = List.filter is_primary l ++ List.filter non_primary l.
Proof.
  rewrite sorted_stable. f_equal.
  apply filter_ext. intros x. apply negb_involutive.
Qed.

Lemma format_report_render (fa : FinalAnalysis) :
  format_report fa
  = report_title +:+ render (sorted (analysis fa) (λ x, negb (is_primary x))).
Proof. unfold format_report. apply fold_add_issue. Qed.

Lemma filter_none {B} (f : B → bool) (l : list B) :
  Forall (λ x, f x = false) l → List.filter f l = [].
Proof.
  induction 1 as [|x l Hx _ IH]; simpl; [reflexivity|]. now rewrite Hx.
Qed.

Lemma tag_primary (issue : HealthIssue) :
  String.eqb (tag issue) "Primary Diagnosis" = is_primary issue.
Proof. unfold tag. now destruct (is_primary issue). Qed.

End Report.

Section ReportClaims.
Import Agents Main.

(** C5. For a FinalAnalysis with three entries of which exactly one is
    primary, the loop of the report runs over the primary entry and then
    the two other entries in their original order (a stable sort on
    [not is_primary]), and the text is the title, one "Primary Diagnosis"
    header with the rationale of that entry, then two "Differential
    Diagnosis" headers, each with the rationale of its entry. *)
Theorem C5_report_primary_then_differentials (fa : FinalAnalysis) :
  length (analysis fa) = 3 →
  length (List.filter is_primary (analysis fa)) = 1 →
  ∃ p d1 d2,
    List.filter is_primary (analysis fa) = [p] ∧
    List.filter non_primary (analysis fa) = [d1; d2] ∧
    sorted (analysis fa) (λ x, negb (is_primary x)) = [p; d1; d2] ∧
    format_report fa =
      report_title
      +:+ "**Primary Diagnosis: " +:+ diagnosis p +:+ "**" +:+ NL
      +:+ "   - **Rationale:** " +:+ rationale p +:+ NL +:+ NL
      +:+ "**Differential Diagnosis: " +:+ diagnosis d1 +:+ "**" +:+ NL
      +:+ "   - **Rationale:** " +:+ rationale d1 +:+ NL +:+ NL
      +:+ "**Differential Diagnosis: " +:+ diagnosis d2 +:+ "**" +:+ NL
      +:+ "   - **Rationale:** " +:+ rationale d2 +:+ NL +:+ NL.
Proof.
  intros Hlen Hone.
  pose proof (filter_length is_primary (analysis fa)) as Hsplit.
  fold non_primary in Hsplit. rewrite Hlen, Hone in Hsplit.
  destruct (List.filter is_primary (analysis fa)) as [|p [|? ?]] eqn:Hp;
    try discriminate.
  destruct (List.filter non_primary (analysis fa)) as [|d1 [|d2 [|? ?]]] eqn:Hd;
    try discriminate.
  exists p, d1, d2.
  assert (Hprim : is_primary p = true).
  { assert (Hin : In p (List.filter is_primary (analysis fa)))
      by (rewrite Hp; now left).
    now apply filter_In in Hin. }
  assert (Hnp : ∀ d, In d [d1; d2] → is_primary d = false).
  { intros d Hin. rewrite <- Hd in Hin. apply filter_In in Hin.
    destruct Hin as [_ Hin]. now apply negb_true_iff. }
  assert (Hsorted : sorted (analysis fa) (λ x, negb (is_primary x)) = [p; d1; d2])
    by (now rewrite primary_first, Hp, Hd).
  repeat split; try assumption.
  rewrite format_report_render, Hsorted.
  unfold render, issue_text, header_line, rationale_line, tag.
  rewrite Hprim, (Hnp d1), (Hnp d2) by (simpl; auto).
  rewrite append_nil_r, !append_assoc. reflexivity.
Qed.

(** C6. The report is a function of the entries alone: two FinalAnalysis
    values with the same entries give the same text, and formatting the
    entries in the order the report already uses changes nothing. An entry
    marked primary that has no primary entry in front of it is written
    first, wherever it stands in the input: the text is that of the input
    with this entry moved to the front, and it starts with the title
    followed by the header and rationale of this entry. *)
Theorem C6_format_report_pure_primary_first
    (before after : list HealthIssue) (p : HealthIssue) :
  is_primary p = true →
  Forall (λ x, is_primary x = false) before →
  let fa := mkFinalAnalysis (before ++ p :: after) in
  (∀ fa', analysis fa' = analysis fa → format_report fa' = format_report fa) ∧
  format_report
    (mkFinalAnalysis (sorted (analysis fa) (λ x, negb (is_primary x))))
  = format_report fa ∧
  sorted (analysis fa) (λ x, negb (is_primary x))
  = p :: sorted (before ++ after) (λ x, negb (is_primary x)) ∧
  format_report fa = format_report (mkFinalAnalysis (p :: before ++ after)) ∧
  String.prefix (report_title +:+ header_line p +:+ rationale_line p)
    (format_report fa) = true.
Proof.
  intros Hp Hbefore fa.
  assert (Hfront : ∀ rest,
    sorted (before ++ p :: rest) (λ x, negb (is_primary x))
    = p :: sorted (before ++ rest) (λ x, negb (is_primary x))).
  { intros rest. rewrite !primary_first, !List.filter_app. simpl.
    rewrite (filter_none is_primary before Hbefore).
    unfold non_primary at 2. rewrite Hp. simpl.
    now rewrite <- List.filter_app. }
  assert (Hhead : ∀ l,
    sorted (p :: l) (λ x, negb (is_primary x))
    = p :: sorted l (λ x, negb (is_primary x))).
  { intros l. apply (insert_by_low _ p). now rewrite Hp. }
  repeat split.
  - intros fa' Heq. unfold format_report. now rewrite Heq.
  - rewrite !format_report_render. simpl analysis.
    now rewrite sorted_idem.
  - apply Hfront.
  - rewrite !format_report_render. simpl analysis.
    now rewrite Hfront, Hhead.
  - rewrite format_report_render. simpl analysis. rewrite Hfront.
    change (render (p :: ?l)) with (issue_text p +:+ render l).
    unfold issue_text. rewrite <- !append_assoc. apply prefix_append.
Qed.

Lemma filter_map_length {B C} (f : C → bool) (g : B → C) (l : list B) :
  length (List.filter f (map g l)) = length (List.filter (λ x, f (g x)) l).
Proof.
  induction l as [|x l IH]; [reflexivity|].
  simpl. destruct (f (g x)); simpl; now rewrite IH.
Qed.

(** The header the report writes for an entry, without its line break,
    and the rationale under it. *)
Lemma issue_text_spelled (issue : HealthIssue) (rest : string) :
  issue_text issue +:+ rest
  = ("**"
     +:+ (if is_primary issue then "Primary Diagnosis" else "Differential Diagnosis")
     +:+ ": " +:+ diagnosis issue +:+ "**")
    +:+ NL +:+ ("   - **Rationale:** " +:+ rationale issue) +:+ NL +:+ NL +:+ rest.
Proof.
  unfold issue_text, header_line, rationale_line, tag.
  destruct (is_primary issue); now rewrite !append_assoc.
Qed.

Lemma header_is_primary (issue : HealthIssue) :
  String.prefix "**Primary Diagnosis: "
    ("**"
     +:+ (if is_primary issue then "Primary Diagnosis" else "Differential Diagnosis")
     +:+ ": " +:+ diagnosis issue +:+ "**")
  = is_primary issue.
Proof.
  destruct (is_primary issue); [|reflexivity].
  apply (prefix_append "**Primary Diagnosis: ").
Qed.

Lemma header_is_differential (issue : HealthIssue) :
  String.prefix "**Differential Diagnosis: "
    ("**"
     +:+ (if is_primary issue then "Primary Diagnosis" else "Differential Diagnosis")
     +:+ ": " +:+ diagnosis issue +:+ "**")
  = non_primary issue.
Proof.
  unfold non_primary. destruct (is_primary issue); [reflexivity|].
  apply (prefix_append "**Differential Diagnosis: ").
Qed.

Lemma header_no_newline (issue : HealthIssue) :
  has_newline (diagnosis issue) = false →
  has_newline
    ("**"
     +:+ (if is_primary issue then "Primary Diagnosis" else "Differential Diagnosis")
     +:+ ": " +:+ diagnosis issue +:+ "**") = false.
Proof.
  unfold has_newline. intros Hd.
  destruct (is_primary issue).
  - change (PyStr.has_char (Ascii.ascii_of_nat 10)
              ("**Primary Diagnosis: " +:+ diagnosis issue +:+ "**") = false).
    now rewrite !has_char_append, Hd.
  - change (PyStr.has_char (Ascii.ascii_of_nat 10)
              ("**Differential Diagnosis: " +:+ diagnosis issue +:+ "**") = false).
    now rewrite !has_char_append, Hd.
Qed.

(** C10. The formatter is defined on every FinalAnalysis, with any number
    of entries and any number of them marked primary. Its text is the
    title and, for each entry of the input, one header
    "**Primary Diagnosis: ...**" or "**Differential Diagnosis: ...**"
    according to the mark of the entry, followed by the line of its
    rationale and an empty line; as many headers are written with
    "Primary Diagnosis" as entries are marked primary, whatever that number
    is. When no diagnosis and no rationale has a line break, these headers
    are lines of the text, and the lines that start as a header of either
    kind are counted likewise. *)
Theorem C10_format_report_total (fa : FinalAnalysis) :
  let issues := sorted (analysis fa) (λ x, negb (is_primary x)) in
  let header (issue : HealthIssue) :=
    "**"
    +:+ (if is_primary issue then "Primary Diagnosis" else "Differential Diagnosis")
    +:+ ": " +:+ diagnosis issue +:+ "**" in
  let rationale_under (issue : HealthIssue) :=
    "   - **Rationale:** " +:+ rationale issue in
  format_report fa
  = "### Final Multidisciplinary Team Analysis ###" +:+ NL +:+ NL
    +:+ foldr (λ issue rest,
                 header issue +:+ NL +:+ rationale_under issue +:+ NL +:+ NL
                 +:+ rest) "" issues ∧
  Permutation issues (analysis fa) ∧
  length (List.filter (String.prefix "**Primary Diagnosis: ") (map header issues))
  = length (List.filter is_primary (analysis fa)) ∧
  length (List.filter (String.prefix "**Differential Diagnosis: ")
            (map header issues))
  = length (List.filter non_primary (analysis fa)) ∧
  (Forall (λ issue, has_newline (diagnosis issue) = false ∧
                    has_newline (rationale issue) = false) (analysis fa) →
   lines_of (format_report fa)
   = "### Final Multidisciplinary Team Analysis ###" :: ""
     :: flat_map (λ issue, [header issue; rationale_under issue; ""]) issues
     ++ [""] ∧
   length (List.filter (String.prefix "**Primary Diagnosis: ")
             (lines_of (format_report fa)))
   = length (List.filter is_primary (analysis fa)) ∧
   length (List.filter (String.prefix "**Differential Diagnosis: ")
             (lines_of (format_report fa)))
   = length (List.filter non_primary (analysis fa))).
Proof.
  intros issues header rationale_under.
  pose proof (sorted_Permutation (λ x, negb (is_primary x)) (analysis fa))
    as Hperm. fold issues in Hperm.
  assert (Htext : format_report fa
    = "### Final Multidisciplinary Team Analysis ###" +:+ NL +:+ NL
      +:+ foldr (λ issue rest,
                   header issue +:+ NL +:+ rationale_under issue +:+ NL +:+ NL
                   +:+ rest) "" issues).
  { rewrite format_report_render. fold issues.
    change (report_title +:+ render issues)
      with ("### Final Multidisciplinary Team Analysis ###" +:+ NL +:+ NL
            +:+ render issues).
    do 3 f_equal. clear Hperm.
    induction issues as [|issue rest IH]; [reflexivity|].
    change (render (issue :: rest)) with (issue_text issue +:+ render rest).
    rewrite issue_text_spelled, IH. reflexivity. }
  assert (Hprimary :
    length (List.filter (String.prefix "**Primary Diagnosis: ") (map header issues))
    = length (List.filter is_primary (analysis fa))).
  { rewrite filter_map_length, (filter_ext _ _ header_is_primary).
    now apply filter_length_Permutation. }
  assert (Hdifferential :
    length (List.filter (String.prefix "**Differential Diagnosis: ")
              (map header issues))
    = length (List.filter non_primary (analysis fa))).
  { rewrite filter_map_length, (filter_ext _ _ header_is_differential).
    now apply filter_length_Permutation. }
  split; [exact Htext|]. split; [exact Hperm|].
  split; [exact Hprimary|]. split; [exact Hdifferential|].
  intros Hclean.
  assert (Hissues : Forall (λ issue, has_newline (diagnosis issue) = false ∧
                                     has_newline (rationale issue) = false) issues).
  { apply Forall_forall. intros issue Hin.
    rewrite Forall_forall in Hclean. apply Hclean. now rewrite <- Hperm. }
  assert (Hlines : lines_of (format_report fa)
    = "### Final Multidisciplinary Team Analysis ###" :: ""
      :: flat_map (λ issue, [header issue; rationale_under issue; ""]) issues
      ++ [""]).
  { rewrite Htext. unfold lines_of.
    change (NL +:+ NL +:+ ?body)
      with (String (Ascii.ascii_of_nat 10)
              ("" +:+ String (Ascii.ascii_of_nat 10) body)).
    rewrite split_append by reflexivity.
    rewrite split_append by reflexivity.
    do 2 f_equal. clear Htext Hprimary Hdifferential Hperm Hclean.
    induction Hissues as [|issue rest [Hd Hr] _ IH]; [reflexivity|].
    simpl foldr.
    change (NL +:+ rationale_under issue +:+ NL +:+ NL +:+ ?body)
      with (String (Ascii.ascii_of_nat 10)
              (rationale_under issue
               +:+ String (Ascii.ascii_of_nat 10)
                     ("" +:+ String (Ascii.ascii_of_nat 10) body))).
    rewrite split_append by (now apply header_no_newline).
    rewrite split_append.
    2: { unfold rationale_under. unfold has_newline in Hr.
         now rewrite has_char_append, Hr. }
    rewrite split_append by reflexivity.
    now rewrite IH. }
  split; [exact Hlines|].
  assert (Hcount : ∀ marker kind,
    (∀ issue, String.prefix marker (header issue) = kind issue) →
    (∀ issue, String.prefix marker (rationale_under issue) = false) →
    String.prefix marker "### Final Multidisciplinary Team Analysis ###" = false →
    String.prefix marker "" = false →
    length (List.filter (String.prefix marker) (lines_of (format_report fa)))
    = length (List.filter kind (analysis fa))).
  { intros marker kind Hheader Hrationale Htitle Hempty.
    rewrite Hlines. cbn [List.filter]. rewrite Htitle, Hempty.
    rewrite List.filter_app. cbn [List.filter]. rewrite Hempty, app_nil_r.
    rewrite <- (filter_length_Permutation kind _ _ Hperm).
    clear Hlines Hissues Hclean Hdifferential Hprimary Htext Hperm.
    induction issues as [|issue rest IH]; [reflexivity|].
    cbn [flat_map app List.filter]. rewrite Hheader, Hrationale, Hempty.
    destruct (kind issue); cbn [length]; now rewrite IH. }
  split.
  - apply Hcount; [apply header_is_primary | reflexivity ..].
  - apply Hcount; [apply header_is_differential | reflexivity ..].
Qed.

End ReportClaims.

(** ** The prompt table and the construction of an agent *)

Section PromptTable.
Import Agents Main.
Context `{!Libraries}.

Lemma PROMPTS_lookup_other (key : string) :
  key ∉ PROMPTS_keys → PROMPTS !! key = None.
Proof.
  unfold PROMPTS_keys. intros Hkey.
  repeat (apply not_elem_of_cons in Hkey as [? Hkey]).
  unfold PROMPTS. now rewrite !lookup_insert_ne, lookup_empty by congruence.
Qed.

Lemma PROMPTS_lookup_specialist (key : string) :
  key ∈ ["cardiologist"; "psychologist"; "pulmonologist"] →
  ∃ text, PROMPTS !! key = Some text.
Proof.
  intros Hkey. repeat (apply elem_of_cons in Hkey as [->|Hkey]).
  - exists cardiologist_prompt. reflexivity.
  - exists psychologist_prompt. reflexivity.
  - exists pulmonologist_prompt. reflexivity.
  - now apply elem_of_nil in Hkey.
Qed.

(** With a key that is not empty the client is built. *)
Lemma client_error_with_key (api_key : option string) :
  falsy api_key = false → client_error api_key = None.
Proof.
  unfold falsy, client_error. destruct api_key as [key|]; [|discriminate].
  now intros ->.
Qed.

(** When the client is built, the constructor is the lookup of the
    template. *)
Lemma SpecialistAgent_init_built (env : string → option string)
    (role model_name : string) :
  client_error (env "OPENAI_API_KEY") = None →
  SpecialistAgent_init env role model_name
  = match PROMPTS_getitem (PyStr.lower role) with
    | inl e => inl e
    | inr prompt_text =>
        inr (mkSpecialistAgent role (mkChatOpenAI 0 model_name) prompt_text)
    end.
Proof.
  intros Hclient. unfold SpecialistAgent_init, ChatOpenAI_init.
  now rewrite Hclient.
Qed.

Lemma SpecialistAgent_init_with_key (env : string → option string)
    (role model_name : string) :
  falsy (env "OPENAI_API_KEY") = false →
  SpecialistAgent_init env role model_name
  = match PROMPTS_getitem (PyStr.lower role) with
    | inl e => inl e
    | inr prompt_text =>
        inr (mkSpecialistAgent role (mkChatOpenAI 0 model_name) prompt_text)
    end.
Proof.
  intros Hkey. now apply SpecialistAgent_init_built, client_error_with_key.
Qed.

(** C9, as the code has it. The constructor builds the client before it
    looks the template up. When the client raises, as it does without
    [OPENAI_API_KEY] in the environment, its exception leaves the
    constructor, whatever the role. With a key that is not empty,
    a role whose lowercase form is not a key of [PROMPTS] makes the
    constructor raise the [KeyError] of that lowercase form, and the dict
    comprehension of [main] stops there, having made no call; a role whose
    lowercase form is one of the three specialist keys gets the template
    stored under that key, however the role is capitalised. *)
Theorem C9_unknown_role_raises_KeyError (env : string → option string) :
  (env "OPENAI_API_KEY" = None →
   ∀ role model_name,
     SpecialistAgent_init env role model_name = inl missing_key_error) ∧
  (∀ e,
     client_error (env "OPENAI_API_KEY") = Some e →
     ∀ role model_name, SpecialistAgent_init env role model_name = inl e) ∧
  (falsy (env "OPENAI_API_KEY") = false →
   (∀ role model_name,
      PyStr.lower role ∉
        ["cardiologist"; "psychologist"; "pulmonologist"; "multidisciplinary_team"] →
      SpecialistAgent_init env role model_name
      = inl (KeyError (PyStr.lower role))) ∧
   (∀ w role roles agents t,
      getenv w = env →
      PyStr.lower role ∉
        ["cardiologist"; "psychologist"; "pulmonologist"; "multidisciplinary_team"] →
      build_agents w (role :: roles) agents t
      = (t ++ [EvConstruct role], Raise (KeyError (PyStr.lower role)))) ∧
   (∀ role key model_name,
      key ∈ ["cardiologist"; "psychologist"; "pulmonologist"] →
      PyStr.lower role = key →
      ∃ text,
        PROMPTS !! key = Some text ∧
        SpecialistAgent_init env role model_name
        = inr (mkSpecialistAgent role (mkChatOpenAI 0 model_name) text))).
Proof.
  split; [|split].
  - intros Hkey role model_name.
    unfold SpecialistAgent_init, ChatOpenAI_init. now rewrite Hkey.
  - intros e Hclient role model_name.
    unfold SpecialistAgent_init, ChatOpenAI_init. now rewrite Hclient.
  - intros Hkey.
    assert (Hunknown : ∀ role model_name,
      PyStr.lower role ∉
        ["cardiologist"; "psychologist"; "pulmonologist"; "multidisciplinary_team"] →
      SpecialistAgent_init env role model_name
      = inl (KeyError (PyStr.lower role))).
    { intros role model_name Hrole.
      rewrite (SpecialistAgent_init_with_key env role model_name Hkey).
      unfold PROMPTS_getitem. now rewrite (PROMPTS_lookup_other _ Hrole). }
    split; [exact Hunknown|]. split.
    + intros w role roles agents t Henv Hrole.
      unfold build_agents; fold build_agents.
      unfold mbind, M_bind, emit. now rewrite Henv, (Hunknown role "gpt-4o" Hrole).
    + intros role key model_name Hin Hlower.
      destruct (PROMPTS_lookup_specialist key Hin) as [text Htext].
      exists text. split; [exact Htext|].
      rewrite (SpecialistAgent_init_with_key env role model_name Hkey).
      unfold PROMPTS_getitem. now rewrite Hlower, Htext.
Qed.

End PromptTable.

(** ** Validation of the synthesis reply *)

Section Validation.
Import Agents Main.
Context `{!Libraries}.

Lemma validate_issue_json (issue : HealthIssue) :
  HealthIssue_validate (issue_json issue) = Some issue.
Proof.
  destruct issue as [d r b]. reflexivity.
Qed.

Lemma validate_missing_field (v : json) (m : gmap string json) (key : string) :
  as_dict v = Some m →
  key ∈ ["diagnosis"; "rationale"; "is_primary"] →
  m !! key = None →
  HealthIssue_validate v = None.
Proof.
  intros Hm Hkey Hnone. unfold HealthIssue_validate, required.
  rewrite Hm. simpl.
  repeat (apply elem_of_cons in Hkey as [->|Hkey]).
  - now rewrite Hnone.
  - destruct (m !! "diagnosis" ≫= str_validator); simpl; [|reflexivity].
    now rewrite Hnone.
  - destruct (m !! "diagnosis" ≫= str_validator); simpl; [|reflexivity].
    destruct (m !! "rationale" ≫= str_validator); simpl; [|reflexivity].
    now rewrite Hnone.
  - now apply elem_of_nil in Hkey.
Qed.

Lemma parse_obj_invalid_entry (obj : json) (d : gmap string json)
    (items : list json) (v : json) :
  as_dict obj = Some d →
  d !! "analysis" = Some (JList items) →
  v ∈ items →
  HealthIssue_validate v = None →
  FinalAnalysis_parse_obj obj = None.
Proof.
  intros Hd Hitems Hv Hinvalid. unfold FinalAnalysis_parse_obj, required.
  rewrite Hd. simpl. rewrite Hitems. simpl.
  assert (Hnone : mapM HealthIssue_validate items = None).
  { apply mapM_None, Exists_exists. eauto. }
  now rewrite Hnone.
Qed.

Lemma parse_obj_analysis_json (issues : list HealthIssue) :
  FinalAnalysis_parse_obj (analysis_json issues) = Some (mkFinalAnalysis issues).
Proof.
  unfold FinalAnalysis_parse_obj, analysis_json, as_dict, py_dict, required.
  simpl reverse. simpl list_to_map. simpl mbind at 1.
  rewrite lookup_insert_eq. simpl.
  assert (Hall : mapM HealthIssue_validate (map issue_json issues) = Some issues).
  { apply mapM_Some. induction issues as [|issue rest IH]; simpl.
    - constructor.
    - constructor; [apply validate_issue_json | exact IH]. }
  now rewrite Hall.
Qed.

Lemma parse_obj_not_a_list (obj : json) (d : gmap string json) (v : json) :
  as_dict obj = Some d →
  d !! "analysis" = Some v →
  (∀ items, v ≠ JList items) →
  FinalAnalysis_parse_obj obj = None.
Proof.
  intros Hd Hv Hnot. unfold FinalAnalysis_parse_obj, required.
  rewrite Hd. simpl. rewrite Hv. simpl.
  destruct v; try reflexivity. now destruct (Hnot items).
Qed.

(** C3, as the code has it. The parser validates all or nothing: a reply is
    rejected, with an exception and no FinalAnalysis, when its [analysis] is
    not a list, or when any one entry of the list does not validate, as an
    entry without [diagnosis], [rationale] or [is_primary] does not. It
    checks neither the number of entries nor how many are marked primary:
    every list of well-formed entries, of any length and with any number
    of primaries, is accepted as it is. *)
Theorem C3_parser_validates_fields_only :
  (∀ obj d items v m key,
     as_dict obj = Some d →
     d !! "analysis" = Some (JList items) →
     v ∈ items →
     as_dict v = Some m →
     key ∈ ["diagnosis"; "rationale"; "is_primary"] →
     m !! key = None →
     ∃ e, parser_parse obj = inl e) ∧
  (∀ obj d v,
     as_dict obj = Some d →
     d !! "analysis" = Some v →
     (∀ items, v ≠ JList items) →
     ∃ e, parser_parse obj = inl e) ∧
  (∀ obj fa,
     parser_parse obj = inr fa →
     ∃ d items,
       as_dict obj = Some d ∧
       d !! "analysis" = Some (JList items) ∧
       Forall2 (λ v issue, HealthIssue_validate v = Some issue)
         items (analysis fa)) ∧
  (∀ issues,
     parser_parse (analysis_json issues) = inr (mkFinalAnalysis issues)).
Proof.
  repeat split.
  - intros obj d items v m key Hd Hitems Hv Hm Hkey Hnone.
    unfold parser_parse.
    rewrite (parse_obj_invalid_entry obj d items v Hd Hitems Hv
               (validate_missing_field v m key Hm Hkey Hnone)).
    eauto.
  - intros obj d v Hd Hv Hnot. unfold parser_parse.
    rewrite (parse_obj_not_a_list obj d v Hd Hv Hnot). eauto.
  - intros obj fa. unfold parser_parse, FinalAnalysis_parse_obj, required.
    destruct (as_dict obj) as [d|]; simpl; [|discriminate].
    destruct (d !! "analysis") as [v|] eqn:Hv; simpl; [|discriminate].
    destruct v as [| | | |items|]; simpl; try discriminate.
    destruct (mapM HealthIssue_validate items) as [issues|] eqn:Hall;
      simpl; [|discriminate].
    intros [= <-]. exists d, items.
    split; [reflexivity|]. split; [exact Hv|]. now apply mapM_Some.
  - intros issues. unfold parser_parse.
    now rewrite parse_obj_analysis_json.
Qed.

End Validation.

(** ** The fan-out *)

Section FanOut.
Import Agents Main.
Context `{!Libraries}.

(** When the client is built, what the call of a role settles to is what
    the chain of its template gives. *)
Lemma result_of_built (w : World) (text : string) :
  client_error (getenv w "OPENAI_API_KEY") = None →
  result_of w text "Cardiologist" = chain_invoke w cardiologist_prompt text ∧
  result_of w text "Psychologist" = chain_invoke w psychologist_prompt text ∧
  result_of w text "Pulmonologist" = chain_invoke w pulmonologist_prompt text.
Proof.
  intros Hclient. unfold result_of.
  rewrite !(SpecialistAgent_init_built _ _ _ Hclient). repeat split.
Qed.

Lemma result_of_specialist (w : World) (text : string) :
  falsy (getenv w "OPENAI_API_KEY") = false →
  result_of w text "Cardiologist" = chain_invoke w cardiologist_prompt text ∧
  result_of w text "Psychologist" = chain_invoke w psychologist_prompt text ∧
  result_of w text "Pulmonologist" = chain_invoke w pulmonologist_prompt text.
Proof. intros Hkey. now apply result_of_built, client_error_with_key. Qed.

Lemma build_agents_built (w : World) (t : list event) :
  client_error (getenv w "OPENAI_API_KEY") = None →
  build_agents w specialist_roles [] t
  = (t ++ [EvConstruct "Cardiologist"; EvConstruct "Psychologist";
           EvConstruct "Pulmonologist"], Ret agents3).
Proof.
  intros Hclient.
  transitivity
    ((((t ++ [EvConstruct "Cardiologist"]) ++ [EvConstruct "Psychologist"])
        ++ [EvConstruct "Pulmonologist"]), Ret agents3).
  - unfold specialist_roles, build_agents, mbind, M_bind, emit.
    rewrite !(SpecialistAgent_init_built _ _ _ Hclient). reflexivity.
  - now rewrite <- !app_assoc.
Qed.

Lemma build_agents_three (w : World) (t : list event) :
  falsy (getenv w "OPENAI_API_KEY") = false →
  build_agents w specialist_roles [] t
  = (t ++ [EvConstruct "Cardiologist"; EvConstruct "Psychologist";
           EvConstruct "Pulmonologist"], Ret agents3).
Proof. intros Hkey. now apply build_agents_built, client_error_with_key. Qed.

(** When the client raises, the dict comprehension ends at the first
    agent with the exception of the client. *)
Lemma build_agents_no_client (w : World) (e : exn) (t : list event) :
  client_error (getenv w "OPENAI_API_KEY") = Some e →
  build_agents w specialist_roles [] t
  = (t ++ [EvConstruct "Cardiologist"], Raise e).
Proof.
  intros Hclient.
  unfold specialist_roles, build_agents, mbind, M_bind, emit.
  unfold SpecialistAgent_init, ChatOpenAI_init. now rewrite Hclient.
Qed.

Lemma submit_all_built (w : World) (medical_report : string) (t : list event) :
  client_error (getenv w "OPENAI_API_KEY") = None →
  submit_all w medical_report agents3 ∅ ∅ t
  = (t ++ [EvSubmit 0 "Cardiologist" cardiologist_prompt medical_report;
           EvSubmit 1 "Psychologist" psychologist_prompt medical_report;
           EvSubmit 2 "Pulmonologist" pulmonologist_prompt medical_report],
     Ret (pool3 w medical_report, future_to_role3)).
Proof.
  intros Hclient. unfold pool3.
  destruct (result_of_built w medical_report Hclient) as (-> & -> & ->).
  transitivity
    ((((t ++ [EvSubmit 0 "Cardiologist" cardiologist_prompt medical_report])
         ++ [EvSubmit 1 "Psychologist" psychologist_prompt medical_report])
        ++ [EvSubmit 2 "Pulmonologist" pulmonologist_prompt medical_report]),
     Ret (<[2 := chain_invoke w pulmonologist_prompt medical_report]>
          (<[1 := chain_invoke w psychologist_prompt medical_report]>
          (<[0 := chain_invoke w cardiologist_prompt medical_report]>
             (∅ : executor))),
          future_to_role3)).
  - reflexivity.
  - now rewrite <- !app_assoc.
Qed.

Lemma submit_all_three (w : World) (medical_report : string) (t : list event) :
  falsy (getenv w "OPENAI_API_KEY") = false →
  submit_all w medical_report agents3 ∅ ∅ t
  = (t ++ [EvSubmit 0 "Cardiologist" cardiologist_prompt medical_report;
           EvSubmit 1 "Psychologist" psychologist_prompt medical_report;
           EvSubmit 2 "Pulmonologist" pulmonologist_prompt medical_report],
     Ret (pool3 w medical_report, future_to_role3)).
Proof. intros Hkey. now apply submit_all_built, client_error_with_key. Qed.

Lemma collect_one_spec (pool : executor) (future_to_role : gmap nat string)
    (responses : gmap string string) (future : nat) (t : list event) :
  collect_one pool future_to_role responses future t
  = (t ++ log_one pool future_to_role future,
     Ret (record_one pool future_to_role responses future)).
Proof.
  unfold collect_one, record_one, log_one.
  destruct (future_to_role !! future) as [role|];
    [destruct (pool !! future) as [[e|report]|]|];
    simpl; rewrite ?app_nil_r; reflexivity.
Qed.

Lemma collect_spec (pool : executor) (future_to_role : gmap nat string)
    (order : list nat) (responses : gmap string string) (t : list event) :
  collect pool future_to_role order responses t
  = (t ++ logs_of pool future_to_role order,
     Ret (foldl (record_one pool future_to_role) responses order)).
Proof.
  revert responses t. induction order as [|future order IH]; intros responses t.
  - simpl. now rewrite app_nil_r.
  - change (collect pool future_to_role (future :: order) responses t)
      with (match collect_one pool future_to_role responses future t with
            | (t', Ret responses') => collect pool future_to_role order responses' t'
            | (t', SysExit code) => (t', SysExit code)
            | (t', Raise e) => (t', Raise e)
            end).
    rewrite collect_one_spec, IH, <- app_assoc. reflexivity.
Qed.

Lemma logs_of_no_call (pool : executor) (future_to_role : gmap nat string)
    (order : list nat) :
  List.filter is_remote_call (logs_of pool future_to_role order) = [] ∧
  List.filter is_synthesis (logs_of pool future_to_role order) = [] ∧
  List.filter is_construct (logs_of pool future_to_role order) = [].
Proof.
  induction order as [|future order (IH1 & IH2 & IH3)]; [now simpl|].
  change (logs_of pool future_to_role (future :: order))
    with (log_one pool future_to_role future
          ++ logs_of pool future_to_role order).
  rewrite !List.filter_app, IH1, IH2, IH3. unfold log_one.
  destruct (future_to_role !! future) as [role|];
    [destruct (pool !! future) as [[e|report]|]|]; now simpl.
Qed.

(** Whatever the order in which the three futures complete, the loop ends
    with the same dict. *)
Lemma record_all_three (w : World) (medical_report : string) (order : list nat) :
  Permutation order [0; 1; 2] →
  foldl (record_one (pool3 w medical_report) future_to_role3) ∅ order
  = settled w medical_report.
Proof.
  intros Hperm. symmetry in Hperm. apply permutations_Permutation in Hperm.
  vm_compute permutations in Hperm.
  repeat (apply elem_of_cons in Hperm as [->|Hperm]);
    [reflexivity .. | now apply elem_of_nil in Hperm].
Qed.

Lemma run_specialists_built (w : World) (medical_report : string) (t : list event) :
  client_error (getenv w "OPENAI_API_KEY") = None →
  Permutation (completion_order w) [0; 1; 2] →
  run_specialists w medical_report t
  = (t ++ fan_out_events w medical_report, Ret (settled w medical_report)).
Proof.
  intros Hclient Hperm. unfold run_specialists.
  unfold mbind at 1, M_bind at 1. rewrite (build_agents_built w _ Hclient).
  unfold mbind at 1, M_bind at 1. rewrite (submit_all_built w _ _ Hclient).
  unfold mbind at 1, M_bind at 1. unfold logging_info at 1, emit at 1.
  rewrite collect_spec, (record_all_three w medical_report _ Hperm).
  unfold fan_out_events. rewrite <- !app_assoc. reflexivity.
Qed.

Lemma run_specialists_spec (w : World) (medical_report : string) (t : list event) :
  falsy (getenv w "OPENAI_API_KEY") = false →
  Permutation (completion_order w) [0; 1; 2] →
  run_specialists w medical_report t
  = (t ++ fan_out_events w medical_report, Ret (settled w medical_report)).
Proof. intros Hkey. now apply run_specialists_built, client_error_with_key. Qed.

(** When the client raises, step 2 ends at the first agent. *)
Lemma run_specialists_no_client (w : World) (medical_report : string)
    (e : exn) (t : list event) :
  client_error (getenv w "OPENAI_API_KEY") = Some e →
  run_specialists w medical_report t
  = (t ++ [EvConstruct "Cardiologist"], Raise e).
Proof.
  intros Hclient. unfold run_specialists.
  unfold mbind at 1, M_bind at 1.
  now rewrite (build_agents_no_client w e _ Hclient).
Qed.

End FanOut.

(** ** The run as a whole *)

Section Run.
Import Agents Main.
Context `{!Libraries}.

Lemma load_input_no_key (w : World) (report_path : string) (t : list event) :
  falsy (getenv w "OPENAI_API_KEY") = true →
  load_input w report_path t
  = (t ++ [EvLoadDotenv;
           EvLog "ERROR" "FATAL: OPENAI_API_KEY not found in .env file. Please create one."],
     SysExit 1).
Proof.
  intros Hkey. unfold load_input.
  unfold mbind at 1, M_bind at 1, emit at 1.
  unfold mbind at 1, M_bind at 1. rewrite Hkey.
  unfold mbind, M_bind, logging_error, emit, sys_exit.
  now rewrite <- app_assoc.
Qed.

Lemma load_input_ok (w : World) (report_path text : string) (t : list event) :
  falsy (getenv w "OPENAI_API_KEY") = false →
  read_file w report_path = Some text →
  load_input w report_path t
  = (t ++ [EvLoadDotenv;
           EvLog "INFO" ("Successfully loaded report: " +:+ PyStr.basename report_path)],
     Ret text).
Proof.
  intros Hkey Hfile. unfold load_input.
  unfold mbind at 1, M_bind at 1, emit at 1.
  unfold mbind at 1, M_bind at 1. rewrite Hkey, Hfile.
  unfold mret, M_ret, mbind, M_bind, logging_info, emit.
  now rewrite <- app_assoc.
Qed.

Lemma run_after_specialists (w : World) (report_path output_dir text : string) :
  falsy (getenv w "OPENAI_API_KEY") = false →
  read_file w report_path = Some text →
  Permutation (completion_order w) [0; 1; 2] →
  run_main w report_path output_dir
  = after_specialists w report_path output_dir (settled w text)
      (prelude_events report_path output_dir ++ fan_out_events w text).
Proof.
  intros Hkey Hfile Hperm. unfold run_main, main.
  unfold mbind at 1, M_bind at 1.
  change (setup_logging output_dir [])
    with ([EvMakedirs output_dir], Ret (PyStr.path_join output_dir "analysis.log")).
  unfold mbind at 1, M_bind at 1.
  rewrite (load_input_ok w report_path text _ Hkey Hfile).
  unfold mbind at 1, M_bind at 1.
  rewrite (run_specialists_spec w text _ Hkey Hperm).
  reflexivity.
Qed.

Lemma settled_size (w : World) (text : string) :
  size (settled w text) = length specialist_roles.
Proof. reflexivity. Qed.

Lemma settled_lookup (w : World) (text role : string) :
  role ∈ specialist_roles →
  settled w text !! role = Some (entry_of (result_of w text role)).
Proof.
  unfold specialist_roles. intros Hrole.
  repeat (apply elem_of_cons in Hrole as [->|Hrole]);
    [reflexivity .. | now apply elem_of_nil in Hrole].
Qed.

Lemma settled_dom (w : World) (text : string) :
  dom (settled w text) = list_to_set specialist_roles.
Proof. unfold settled. rewrite !dom_insert_L, dom_empty_L. set_solver. Qed.

Lemma team_init_with_key (w : World) :
  falsy (getenv w "OPENAI_API_KEY") = false →
  MultidisciplinaryTeam_init (getenv w) "gpt-4o"
  = inr (mkMultidisciplinaryTeam (mkChatOpenAI 0 "gpt-4o")
           multidisciplinary_team_prompt).
Proof.
  intros Hkey. unfold MultidisciplinaryTeam_init, ChatOpenAI_init.
  now rewrite (client_error_with_key _ Hkey).
Qed.

(** The guard of step 3 compares the size of a dict that always has three
    entries with three: it lets every run through to the synthesis call. *)
Lemma run_synthesis_settled (w : World) (text : string) (t : list event) :
  falsy (getenv w "OPENAI_API_KEY") = false →
  run_synthesis w (settled w text) t
  = let t' := t ++ [EvLog "INFO" "All specialist reports received. Running Multidisciplinary Team...";
                    synthesis_event w text] in
    let failed (e : exn) :=
      (t' ++ [EvLog "ERROR" ("FATAL: The Multidisciplinary Team agent failed: " +:+ str_exn e)],
       SysExit 1) in
    match team_invoke w (entry_of (result_of w text "Cardiologist"))
                        (entry_of (result_of w text "Psychologist"))
                        (entry_of (result_of w text "Pulmonologist")) with
    | inl e => failed e
    | inr reply =>
        match parser_parse reply with
        | inl e => failed e
        | inr final_analysis => (t', Ret final_analysis)
        end
    end.
Proof.
  intros Hkey.
  transitivity
    (let t' := (t ++ [EvLog "INFO" "All specialist reports received. Running Multidisciplinary Team..."])
                 ++ [synthesis_event w text] in
     let failed (e : exn) :=
       (t' ++ [EvLog "ERROR" ("FATAL: The Multidisciplinary Team agent failed: " +:+ str_exn e)],
        SysExit (A := FinalAnalysis) 1) in
     match team_invoke w (entry_of (result_of w text "Cardiologist"))
                         (entry_of (result_of w text "Psychologist"))
                         (entry_of (result_of w text "Pulmonologist")) with
     | inl e => failed e
     | inr reply =>
         match parser_parse reply with
         | inl e => failed e
         | inr final_analysis => (t', Ret final_analysis)
         end
     end).
  - cbv zeta.
    unfold run_synthesis, mbind, M_bind, try_except, team_run, mbind, M_bind.
    rewrite settled_size, (team_init_with_key w Hkey). cbn. unfold dict_get.
    rewrite !settled_lookup by set_solver.
    destruct (team_invoke w _ _ _) as [e|reply]; [reflexivity|].
    cbn. destruct (parser_parse reply) as [e|fa]; reflexivity.
  - cbv zeta. now rewrite <- !app_assoc.
Qed.

End Run.

(** ** The claims about the run *)

Section RunClaims.
Import Agents Main.
Context `{!Libraries}.

Lemma fan_out_no_synthesis (w : World) (text : string) :
  List.filter is_synthesis (fan_out_events w text) = [].
Proof.
  unfold fan_out_events. rewrite List.filter_app.
  now destruct (logs_of_no_call (pool3 w text) future_to_role3
                  (completion_order w)) as (_ & -> & _).
Qed.

Lemma fan_out_calls (w : World) (text : string) :
  List.filter is_remote_call (fan_out_events w text)
  = [EvSubmit 0 "Cardiologist" cardiologist_prompt text;
     EvSubmit 1 "Psychologist" psychologist_prompt text;
     EvSubmit 2 "Pulmonologist" pulmonologist_prompt text].
Proof.
  unfold fan_out_events. rewrite List.filter_app.
  now destruct (logs_of_no_call (pool3 w text) future_to_role3
                  (completion_order w)) as (-> & _ & _).
Qed.

(** C4. In every run that gets past step 1 and in which each of the three
    futures completes once, step 2 launches three calls and ends with a
    ResultSet whose keys are exactly the three roles, each holding what the
    call of that role settled to (its report, or the placeholder of its
    exception); no synthesis call has been made by then, and the rest of
    the run is step 3 applied to this ResultSet. *)
Theorem C4_fan_out_covers_every_role
    (w : World) (report_path output_dir medical_report : string) :
  falsy (getenv w "OPENAI_API_KEY") = false →
  read_file w report_path = Some medical_report →
  Permutation (completion_order w) [0; 1; 2] →
  ∃ t responses,
    run_specialists w medical_report (prelude_events report_path output_dir)
    = (t, Ret responses) ∧
    dom responses = list_to_set specialist_roles ∧
    size responses = length specialist_roles ∧
    (∀ role, role ∈ specialist_roles →
       responses !! role = Some (entry_of (result_of w medical_report role))) ∧
    List.filter is_remote_call t
    = [EvSubmit 0 "Cardiologist" cardiologist_prompt medical_report;
       EvSubmit 1 "Psychologist" psychologist_prompt medical_report;
       EvSubmit 2 "Pulmonologist" pulmonologist_prompt medical_report] ∧
    List.filter is_synthesis t = [] ∧
    run_main w report_path output_dir
    = after_specialists w report_path output_dir responses t.
Proof.
  intros Hkey Hfile Hperm.
  exists (prelude_events report_path output_dir ++ fan_out_events w medical_report),
         (settled w medical_report).
  split; [now apply run_specialists_spec|].
  split; [apply settled_dom|].
  split; [apply settled_size|].
  split; [intros role; apply settled_lookup|].
  split; [rewrite List.filter_app; apply fan_out_calls|].
  split; [rewrite List.filter_app; apply fan_out_no_synthesis|].
  now apply run_after_specialists.
Qed.

(** C7. Without the credential (unset, or set to the empty string) the run
    logs one fatal error and exits with status 1 right after the
    environment is loaded: no agent has been constructed and no call has
    been made. *)
Theorem C7_missing_credential_exits_first
    (w : World) (report_path output_dir : string) :
  falsy (getenv w "OPENAI_API_KEY") = true →
  run_main w report_path output_dir
  = ([EvMakedirs output_dir; EvLoadDotenv;
      EvLog "ERROR" "FATAL: OPENAI_API_KEY not found in .env file. Please create one."],
     SysExit 1) ∧
  List.filter is_construct (run_main w report_path output_dir).1 = [] ∧
  List.filter is_remote_call (run_main w report_path output_dir).1 = [] ∧
  exit_code (run_main w report_path output_dir).2 ≠ 0%Z.
Proof.
  intros Hkey.
  assert (Hrun : run_main w report_path output_dir
    = ([EvMakedirs output_dir; EvLoadDotenv;
        EvLog "ERROR" "FATAL: OPENAI_API_KEY not found in .env file. Please create one."],
       SysExit 1)).
  { unfold run_main, main. unfold mbind at 1, M_bind at 1.
    change (setup_logging output_dir [])
      with ([EvMakedirs output_dir],
            Ret (PyStr.path_join output_dir "analysis.log")).
    unfold mbind at 1, M_bind at 1.
    now rewrite (load_input_no_key w report_path _ Hkey). }
  rewrite Hrun. repeat split. simpl. discriminate.
Qed.

Lemma failure_logged (w : World) (text role : string) (e : exn) :
  Permutation (completion_order w) [0; 1; 2] →
  role ∈ specialist_roles →
  result_of w text role = inl e →
  EvLog "ERROR" ("✗ " +:+ role +:+ " agent failed: " +:+ str_exn e)
  ∈ fan_out_events w text.
Proof.
  intros Hperm Hrole Hfail.
  assert (Hfuture : ∃ future,
    future ∈ completion_order w ∧
    log_one (pool3 w text) future_to_role3 future
    = [log_of role (result_of w text role)]).
  { unfold specialist_roles in Hrole.
    repeat (apply elem_of_cons in Hrole as [->|Hrole]);
      [exists 0 | exists 1 | exists 2 | now apply elem_of_nil in Hrole];
      (split; [rewrite Hperm; set_solver | reflexivity]). }
  destruct Hfuture as (future & Hin & Hlog).
  unfold fan_out_events. apply elem_of_app. right.
  apply list_elem_of_In, in_flat_map. exists future.
  split; [now apply list_elem_of_In|].
  rewrite Hlog, Hfail. now left.
Qed.

Lemma placeholder_names_role_as_reason_does (role : string) (e : exn) :
  role ∈ specialist_roles →
  PyStr.contains role ("AGENT FAILED TO PRODUCE REPORT. REASON: " +:+ str_exn e)
  = PyStr.contains role (str_exn e).
Proof.
  unfold specialist_roles. intros Hrole.
  repeat (apply elem_of_cons in Hrole as [->|Hrole]);
    [reflexivity .. | now apply elem_of_nil in Hrole].
Qed.

Lemma result_of_is_the_call (w : World) (text role : string) :
  falsy (getenv w "OPENAI_API_KEY") = false →
  role ∈ specialist_roles →
  ∃ template,
    PROMPTS !! PyStr.lower role = Some template ∧
    result_of w text role = chain_invoke w template text.
Proof.
  intros Hkey Hrole.
  destruct (result_of_specialist w text Hkey) as (Hc & Hps & Hpu).
  unfold specialist_roles in Hrole.
  repeat (apply elem_of_cons in Hrole as [->|Hrole]);
    [eexists; split; [reflexivity | eassumption] ..
    | now apply elem_of_nil in Hrole].
Qed.

(** C2, as the code has it. When the call of a role raises, in particular
    when it is the only one that does, the collection loop catches the
    exception, logs an error that names the role and the reason, and goes
    on: step 2 returns a ResultSet with one entry per role, in which the
    entry of the failed role is the fixed text "AGENT FAILED TO PRODUCE
    REPORT. REASON: " followed by the text of the exception, and the entry
    of every role whose call succeeded is its report. The exception is the
    one the call of the chain raised, as it is: nothing wraps it or adds
    the role to it. So the placeholder contains the reason, and it contains
    the name of the role exactly when the text of the exception does; the
    role is the key of the entry and is in the log line. *)
Theorem C2_failed_role_gets_placeholder
    (w : World) (medical_report role : string) (e : exn) (t : list event) :
  falsy (getenv w "OPENAI_API_KEY") = false →
  Permutation (completion_order w) [0; 1; 2] →
  role ∈ specialist_roles →
  result_of w medical_report role = inl e →
  ∃ t' responses,
    run_specialists w medical_report t = (t', Ret responses) ∧
    dom responses = list_to_set specialist_roles ∧
    responses !! role
    = Some ("AGENT FAILED TO PRODUCE REPORT. REASON: " +:+ str_exn e) ∧
    PyStr.contains (str_exn e)
      ("AGENT FAILED TO PRODUCE REPORT. REASON: " +:+ str_exn e) = true ∧
    PyStr.contains role
      ("AGENT FAILED TO PRODUCE REPORT. REASON: " +:+ str_exn e)
    = PyStr.contains role (str_exn e) ∧
    (∃ template,
       PROMPTS !! PyStr.lower role = Some template ∧
       chain_invoke w template medical_report = inl e) ∧
    (∀ role' report,
       role' ∈ specialist_roles →
       result_of w medical_report role' = inr report →
       responses !! role' = Some report) ∧
    EvLog "ERROR" ("✗ " +:+ role +:+ " agent failed: " +:+ str_exn e) ∈ t'.
Proof.
  intros Hkey Hperm Hrole Hfail.
  exists (t ++ fan_out_events w medical_report), (settled w medical_report).
  split; [now apply run_specialists_spec|].
  split; [apply settled_dom|].
  split; [now rewrite (settled_lookup _ _ _ Hrole), Hfail|].
  split; [apply contains_append_r|].
  split; [now apply placeholder_names_role_as_reason_does|].
  split.
  { destruct (result_of_is_the_call w medical_report role Hkey Hrole)
      as (template & Htemplate & Hcall).
    exists template. split; [exact Htemplate|]. now rewrite <- Hcall. }
  split.
  - intros role' report Hrole' Hok.
    now rewrite (settled_lookup _ _ _ Hrole'), Hok.
  - apply elem_of_app. right. now apply failure_logged.
Qed.

(** Step 4 adds to the trace and takes nothing from it. *)
Lemma save_output_extends (w : World) (report_path output_dir log_file : string)
    (fa : FinalAnalysis) (t : list event) :
  ∃ events,
    (save_output w report_path output_dir log_file fa t).1 = t ++ events.
Proof.
  unfold save_output, mbind, M_bind, logging_info.
  destruct (write_file w _ _) as [e|].
  - exists []. unfold raise. cbn [fst]. now rewrite app_nil_r.
  - eexists. unfold emit. cbn [fst]. rewrite <- !app_assoc. reflexivity.
Qed.

(** Step 3 is reached in every run that gets past step 1, whatever the
    calls of the specialists settled to, and the synthesis call is made on
    the entries of the ResultSet, placeholders included. *)
Lemma synthesis_always_attempted
    (w : World) (report_path output_dir medical_report : string) :
  falsy (getenv w "OPENAI_API_KEY") = false →
  read_file w report_path = Some medical_report →
  Permutation (completion_order w) [0; 1; 2] →
  synthesis_event w medical_report ∈ (run_main w report_path output_dir).1.
Proof.
  intros Hkey Hfile Hperm.
  rewrite (run_after_specialists w report_path output_dir medical_report
             Hkey Hfile Hperm).
  unfold after_specialists. unfold mbind at 1, M_bind at 1.
  rewrite (run_synthesis_settled w _ _ Hkey). cbv zeta.
  destruct (team_invoke w _ _ _) as [e|reply];
    [|destruct (parser_parse reply) as [e|fa]].
  - cbn [fst]. rewrite !elem_of_app. left. right. set_solver.
  - cbn [fst]. rewrite !elem_of_app. left. right. set_solver.
  - destruct (save_output_extends w report_path output_dir
                (PyStr.path_join output_dir "analysis.log") fa
                ((prelude_events report_path output_dir
                  ++ fan_out_events w medical_report)
                 ++ [EvLog "INFO" "All specialist reports received. Running Multidisciplinary Team...";
                     synthesis_event w medical_report]))
      as (events & ->).
    rewrite !elem_of_app. left. right. set_solver.
Qed.

End RunClaims.

(** ** The claims on sample runs *)

Section FailingRun.
Import Agents Main.
Context `{!Libraries}.

(** C1 does not hold of the code. In the run in which the call of the
    cardiologist raises and the two other calls succeed, the run is not
    aborted: the ResultSet has three entries, the guard of step 3 does not
    fire, the synthesis call is made with the placeholder of the
    cardiologist as its first argument, and the process ends with status
    0. *)
Theorem C1_synthesis_runs_after_a_failure :
  result_of cardiologist_fails
    "Patient reports chest pain and shortness of breath" "Cardiologist"
  = inl (Exception "timeout") ∧
  List.filter is_synthesis (run_main cardiologist_fails "report.txt" "./results").1
  = [EvSynthesis "AGENT FAILED TO PRODUCE REPORT. REASON: timeout"
       "No acute findings." "No acute findings."] ∧
  List.filter (λ ev, match ev with EvLog "CRITICAL" _ => true | _ => false end)
    (run_main cardiologist_fails "report.txt" "./results").1 = [] ∧
  (run_main cardiologist_fails "report.txt" "./results").2 = Ret tt ∧
  exit_code (run_main cardiologist_fails "report.txt" "./results").2 = 0%Z.
Proof. vm_compute. repeat split. Qed.

End FailingRun.

Section Samples.
Import Agents Main.
#[local] Existing Instance sample_libraries.

Lemma sample_order : Permutation (completion_order cardiologist_fails) [0; 1; 2].
Proof.
  change (Permutation [2; 0; 1] [0; 1; 2]).
  eapply perm_trans; [apply perm_swap | apply perm_skip, perm_swap].
Defined.

(** C2 does not hold of the code as it is stated: in the run in which only
    the call of the cardiologist raises, the exception that reaches the
    loop is the plain exception of the call, with text "timeout", which
    carries no role; and the entry of the cardiologist is a placeholder that
    contains this text and does not contain the name of the role. *)
Lemma C2_counterexample_placeholder_lacks_role :
  match run_specialists cardiologist_fails
          "Patient reports chest pain and shortness of breath" [] with
  | (_, Ret responses) =>
      result_of cardiologist_fails
        "Patient reports chest pain and shortness of breath" "Cardiologist"
      = inl (Exception "timeout") ∧
      PyStr.contains "Cardiologist" (str_exn (Exception "timeout")) = false ∧
      responses !! "Cardiologist"
      = Some "AGENT FAILED TO PRODUCE REPORT. REASON: timeout" ∧
      responses !! "Psychologist" = Some "No acute findings." ∧
      responses !! "Pulmonologist" = Some "No acute findings." ∧
      PyStr.contains "timeout"
        "AGENT FAILED TO PRODUCE REPORT. REASON: timeout" = true ∧
      PyStr.contains "Cardiologist"
        "AGENT FAILED TO PRODUCE REPORT. REASON: timeout" = false
  | _ => False
  end.
Proof. vm_compute. repeat split. Qed.

(** C3 does not hold of the code as it is stated: a reply with two
    entries, both marked primary, is accepted. *)
Lemma C3_counterexample_two_primaries_accepted :
  ∃ fa,
    parser_parse two_primaries_reply = inr fa ∧
    length (analysis fa) = 2 ∧
    length (List.filter is_primary (analysis fa)) = 2.
Proof. eexists. vm_compute. repeat split. Qed.

(** C9 does not hold of the code as it is stated: without the key, the
    constructor called with a role that is not in the table raises the
    exception of the client, not the [KeyError] of the role. *)
Lemma C9_counterexample_client_raises_first :
  getenv no_credential "OPENAI_API_KEY" = None ∧
  PyStr.lower "Dentist" = "dentist" ∧
  PROMPTS !! "dentist" = None ∧
  SpecialistAgent_init (getenv no_credential) "Dentist" "gpt-4o"
  = inl missing_key_error ∧
  SpecialistAgent_init (getenv no_credential) "Dentist" "gpt-4o"
  ≠ inl (KeyError "dentist").
Proof. repeat split. discriminate. Qed.

Lemma C2_witness :
  falsy (getenv cardiologist_fails "OPENAI_API_KEY") = false ∧
  Permutation (completion_order cardiologist_fails) [0; 1; 2] ∧
  "Cardiologist" ∈ specialist_roles ∧
  result_of cardiologist_fails "chest pain" "Cardiologist"
  = inl (Exception "timeout") ∧
  ∃ t' responses,
    run_specialists cardiologist_fails "chest pain" [] = (t', Ret responses) ∧
    responses !! "Cardiologist"
    = Some "AGENT FAILED TO PRODUCE REPORT. REASON: timeout" ∧
    EvLog "ERROR" "✗ Cardiologist agent failed: timeout" ∈ t'.
Proof.
  assert (Hrole : "Cardiologist" ∈ specialist_roles) by (now left).
  assert (Hfail : result_of cardiologist_fails "chest pain" "Cardiologist"
                  = inl (Exception "timeout")) by reflexivity.
  split; [reflexivity|].
  split; [exact sample_order|]. split; [exact Hrole|]. split; [exact Hfail|].
  destruct (C2_failed_role_gets_placeholder cardiologist_fails "chest pain"
              "Cardiologist" (Exception "timeout") [] eq_refl sample_order
              Hrole Hfail)
    as (t' & responses & Hrun & _ & Hentry & _ & _ & _ & _ & Hlog).
  exists t', responses. repeat split; assumption.
Defined.

Lemma C3_witness :
  (∃ e, parser_parse missing_flag_reply = inl e) ∧
  (∃ e, parser_parse not_a_list_reply = inl e) ∧
  parser_parse (analysis_json (analysis three_entries)) = inr three_entries.
Proof.
  destruct C3_parser_validates_fields_only as (Hfield & Hlist & _ & Hany).
  split; [|split].
  - eapply (Hfield missing_flag_reply _ _
              (JObj [("diagnosis", JStr "GERD");
                     ("rationale", JStr "Cardiologist report")])
              _ "is_primary").
    + reflexivity.
    + reflexivity.
    + right. left.
    + reflexivity.
    + right. right. left.
    + reflexivity.
  - eapply (Hlist not_a_list_reply).
    + reflexivity.
    + reflexivity.
    + discriminate.
  - apply Hany.
Defined.

Lemma C4_witness :
  falsy (getenv cardiologist_fails "OPENAI_API_KEY") = false ∧
  read_file cardiologist_fails "report.txt"
  = Some "Patient reports chest pain and shortness of breath" ∧
  Permutation (completion_order cardiologist_fails) [0; 1; 2] ∧
  ∃ t responses,
    run_specialists cardiologist_fails
      "Patient reports chest pain and shortness of breath"
      (prelude_events "report.txt" "./results") = (t, Ret responses) ∧
    size responses = 3 ∧
    List.filter is_synthesis t = [].
Proof.
  split; [reflexivity|]. split; [reflexivity|]. split; [exact sample_order|].
  destruct (C4_fan_out_covers_every_role cardiologist_fails "report.txt"
              "./results" "Patient reports chest pain and shortness of breath"
              eq_refl eq_refl sample_order)
    as (t & responses & Hrun & _ & Hsize & _ & _ & Hsyn & _).
  exists t, responses. repeat split; assumption.
Defined.

Lemma C5_witness :
  length (analysis three_entries) = 3 ∧
  length (List.filter is_primary (analysis three_entries)) = 1 ∧
  ∃ p d1 d2,
    sorted (analysis three_entries) (λ x, negb (is_primary x)) = [p; d1; d2] ∧
    diagnosis p = "Panic disorder" ∧
    diagnosis d1 = "GERD" ∧
    diagnosis d2 = "Asthma".
Proof.
  split; [reflexivity|]. split; [reflexivity|].
  destruct (C5_report_primary_then_differentials three_entries eq_refl eq_refl)
    as (p & d1 & d2 & Hp & Hd & Hsorted & _).
  exists p, d1, d2. split; [exact Hsorted|].
  injection Hp as <-. injection Hd as <- <-. repeat split.
Defined.

Lemma C6_witness :
  is_primary (mkHealthIssue "Panic disorder" "Psychologist report" true) = true ∧
  Forall (λ x, is_primary x = false)
    [mkHealthIssue "GERD" "Cardiologist report" false] ∧
  format_report three_entries
  = format_report
      (mkFinalAnalysis
         [mkHealthIssue "Panic disorder" "Psychologist report" true;
          mkHealthIssue "GERD" "Cardiologist report" false;
          mkHealthIssue "Asthma" "Pulmonologist report" false]).
Proof.
  assert (Hbefore : Forall (λ x, is_primary x = false)
                      [mkHealthIssue "GERD" "Cardiologist report" false])
    by (repeat constructor).
  split; [reflexivity|]. split; [exact Hbefore|].
  exact (proj1 (proj2 (proj2 (proj2
    (C6_format_report_pure_primary_first
       [mkHealthIssue "GERD" "Cardiologist report" false]
       [mkHealthIssue "Asthma" "Pulmonologist report" false]
       (mkHealthIssue "Panic disorder" "Psychologist report" true)
       eq_refl Hbefore))))).
Defined.

Lemma C7_witness :
  falsy (getenv no_credential "OPENAI_API_KEY") = true ∧
  (run_main no_credential "report.txt" "./results").2 = SysExit 1 ∧
  List.filter is_construct (run_main no_credential "report.txt" "./results").1 = [] ∧
  List.filter is_remote_call (run_main no_credential "report.txt" "./results").1 = [].
Proof.
  split; [reflexivity|].
  destruct (C7_missing_credential_exits_first no_credential "report.txt"
              "./results" eq_refl) as (Hrun & Hconstruct & Hcall & _).
  split; [now rewrite Hrun|]. split; assumption.
Defined.

Lemma C9_witness :
  falsy (getenv cardiologist_fails "OPENAI_API_KEY") = false ∧
  getenv no_credential "OPENAI_API_KEY" = None ∧
  SpecialistAgent_init (getenv cardiologist_fails) "Dentist" "gpt-4o"
  = inl (KeyError "dentist") ∧
  SpecialistAgent_init (getenv no_credential) "Dentist" "gpt-4o"
  = inl missing_key_error ∧
  ∃ text,
    PROMPTS !! "cardiologist" = Some text ∧
    SpecialistAgent_init (getenv cardiologist_fails) "CARDIOLOGIST" "gpt-4o"
    = inr (mkSpecialistAgent "CARDIOLOGIST" (mkChatOpenAI 0 "gpt-4o") text).
Proof.
  destruct (C9_unknown_role_raises_KeyError (getenv cardiologist_fails))
    as (_ & _ & Hwith).
  destruct (Hwith eq_refl) as (Hunknown & _ & Hknown).
  destruct (C9_unknown_role_raises_KeyError (getenv no_credential))
    as (Hwithout & _).
  split; [reflexivity|]. split; [reflexivity|]. split; [|split].
  - apply (Hunknown "Dentist" "gpt-4o").
    change (PyStr.lower "Dentist") with "dentist".
    intros Hin. repeat (apply elem_of_cons in Hin as [Hin|Hin]; [discriminate|]).
    now apply elem_of_nil in Hin.
  - exact (Hwithout eq_refl "Dentist" "gpt-4o").
  - apply (Hknown "CARDIOLOGIST" "cardiologist" "gpt-4o"); [now left | reflexivity].
Defined.

Lemma C10_witness :
  Forall (λ issue, has_newline (diagnosis issue) = false ∧
                   has_newline (rationale issue) = false)
    (analysis three_entries) ∧
  length (List.filter (String.prefix "**Primary Diagnosis: ")
            (lines_of (format_report three_entries))) = 1 ∧
  length (List.filter (String.prefix "**Differential Diagnosis: ")
            (lines_of (format_report three_entries))) = 2.
Proof.
  assert (Hclean : Forall (λ issue, has_newline (diagnosis issue) = false ∧
                                    has_newline (rationale issue) = false)
                     (analysis three_entries))
    by (repeat constructor).
  split; [exact Hclean|].
  destruct (C10_format_report_total three_entries)
    as (_ & _ & _ & _ & Hlines).
  destruct (Hlines Hclean) as (_ & Hprimary & Hdifferential).
  split; [exact Hprimary | exact Hdifferential].
Defined.

End Samples.

(** * Further properties of the code *)

(** ** The steps after the fan-out *)

Section Steps.
Import Agents Main.
Context `{!Libraries}.

Lemma run_synthesis_spec (w : World) (responses : gmap string string)
    (t : list event) :
  run_synthesis w responses t
  = if (size responses <? length specialist_roles)%nat then
      (t ++ [EvLog "CRITICAL" "Could not proceed with final analysis as one or more specialist agents failed."],
       SysExit 1)
    else
      let cardiologist_report := dict_get responses "Cardiologist" "N/A" in
      let psychologist_report := dict_get responses "Psychologist" "N/A" in
      let pulmonologist_report := dict_get responses "Pulmonologist" "N/A" in
      let info :=
        EvLog "INFO" "All specialist reports received. Running Multidisciplinary Team..." in
      let failed (events : list event) (e : exn) :=
        (t ++ events
           ++ [EvLog "ERROR" ("FATAL: The Multidisciplinary Team agent failed: " +:+ str_exn e)],
         SysExit 1) in
      let call :=
        [info;
         EvSynthesis cardiologist_report psychologist_report
           pulmonologist_report] in
      match client_error (getenv w "OPENAI_API_KEY") with
      | Some e => failed [info] e
      | None =>
          match team_invoke w cardiologist_report psychologist_report
                  pulmonologist_report with
          | inl e => failed call e
          | inr reply =>
              match parser_parse reply with
              | inl e => failed call e
              | inr final_analysis => (t ++ call, Ret final_analysis)
              end
          end
      end.
Proof.
  unfold run_synthesis, mbind, M_bind, try_except, team_run, mbind, M_bind.
  destruct (size responses <? length specialist_roles)%nat.
  - unfold logging_critical, emit, sys_exit. reflexivity.
  - cbv zeta. unfold mret, M_ret, logging_info, emit, lift_exn.
    unfold MultidisciplinaryTeam_init, ChatOpenAI_init.
    destruct (client_error (getenv w "OPENAI_API_KEY")) as [e|].
    + unfold raise, logging_error, emit, sys_exit. cbv beta iota.
      now rewrite <- !app_assoc.
    + change (PROMPTS_getitem "multidisciplinary_team")
        with (inr (A := exn) multidisciplinary_team_prompt).
      cbv beta iota.
      destruct (team_invoke w _ _ _) as [e|reply];
        unfold mret, M_ret, raise, logging_error, emit, sys_exit;
        cbv beta iota; [|destruct (parser_parse reply) as [e|fa]];
        now rewrite <- !app_assoc.
Qed.

Lemma save_output_spec (w : World) (report_path output_dir log_file : string)
    (fa : FinalAnalysis) (t : list event) :
  save_output w report_path output_dir log_file fa t
  = let output_path :=
      PyStr.path_join output_dir ("analysis_" +:+ PyStr.basename report_path) in
    match write_file w output_path (format_report fa) with
    | Some e => (t, Raise e)
    | None =>
        (t ++ [EvWrite output_path (format_report fa);
               EvLog "INFO" (PyStr.repeat_str "-" 50);
               EvLog "INFO" ("🎉 Analysis complete! Final report saved to: " +:+ output_path);
               EvLog "INFO" ("📄 A detailed log of this run was saved to: " +:+ log_file);
               EvLog "INFO" (PyStr.repeat_str "-" 50)],
         Ret tt)
    end.
Proof.
  unfold save_output, mbind, M_bind, logging_info. cbv zeta.
  destruct (write_file w _ _) as [e|].
  - reflexivity.
  - unfold emit. now rewrite <- !app_assoc.
Qed.

(** X1. With the credential set and no file at the path of the report,
    the run logs one fatal error that names the path and exits with status
    1; no agent has been constructed and no call has been made. *)
Theorem X1_missing_report_exits_first
    (w : World) (report_path output_dir : string) :
  falsy (getenv w "OPENAI_API_KEY") = false →
  read_file w report_path = None →
  run_main w report_path output_dir
  = ([EvMakedirs output_dir; EvLoadDotenv;
      EvLog "ERROR" ("FATAL: Input file not found at '" +:+ report_path +:+ "'")],
     SysExit 1).
Proof.
  intros Hkey Hfile. unfold run_main, main. unfold mbind at 1, M_bind at 1.
  change (setup_logging output_dir [])
    with ([EvMakedirs output_dir],
          Ret (PyStr.path_join output_dir "analysis.log")).
  unfold mbind at 1, M_bind at 1.
  unfold load_input, mbind, M_bind, emit, logging_error, sys_exit.
  now rewrite Hkey, Hfile.
Qed.

(** X2. When the ResultSet has three entries, the client of the team can
    be built, the synthesis call returns a reply that validates to an
    analysis and the report can be written, step 3 makes one synthesis
    call and returns that analysis, and step 4 writes its formatted text
    to the output path and logs the four closing lines. *)
Theorem X2_synthesis_then_report
    (w : World) (report_path output_dir log_file : string)
    (responses : gmap string string) (reply : json) (fa : FinalAnalysis)
    (t : list event) :
  falsy (getenv w "OPENAI_API_KEY") = false →
  (size responses <? 3)%nat = false →
  team_invoke w (dict_get responses "Cardiologist" "N/A")
                (dict_get responses "Psychologist" "N/A")
                (dict_get responses "Pulmonologist" "N/A") = inr reply →
  parser_parse reply = inr fa →
  write_file w
    (PyStr.path_join output_dir ("analysis_" +:+ PyStr.basename report_path))
    (format_report fa) = None →
  let t' := t ++ [EvLog "INFO" "All specialist reports received. Running Multidisciplinary Team...";
                  EvSynthesis (dict_get responses "Cardiologist" "N/A")
                              (dict_get responses "Psychologist" "N/A")
                              (dict_get responses "Pulmonologist" "N/A")] in
  let output_path :=
    PyStr.path_join output_dir ("analysis_" +:+ PyStr.basename report_path) in
  run_synthesis w responses t = (t', Ret fa) ∧
  save_output w report_path output_dir log_file fa t'
  = (t' ++ [EvWrite output_path (format_report fa);
            EvLog "INFO" "--------------------------------------------------";
            EvLog "INFO" ("🎉 Analysis complete! Final report saved to: " +:+ output_path);
            EvLog "INFO" ("📄 A detailed log of this run was saved to: " +:+ log_file);
            EvLog "INFO" "--------------------------------------------------"],
     Ret tt).
Proof.
  intros Hkey Hsize Hreply Hparse Hwrite. cbv zeta. split.
  - rewrite run_synthesis_spec. change (length specialist_roles) with 3.
    rewrite Hsize. cbv zeta.
    now rewrite (client_error_with_key _ Hkey), Hreply, Hparse.
  - rewrite save_output_spec. cbv zeta. now rewrite Hwrite.
Qed.

(** X3. When the ResultSet has three entries, the client of the team can
    be built, and the synthesis call raises or its reply is rejected by
    the parser, step 3 logs one fatal error with the text of that
    exception and exits with status 1: step 4 is not reached and the
    report is not written. *)
Theorem X3_failed_synthesis_writes_nothing
    (w : World) (report_path output_dir log_file : string)
    (responses : gmap string string) (e : exn) (t : list event) :
  falsy (getenv w "OPENAI_API_KEY") = false →
  (size responses <? 3)%nat = false →
  (team_invoke w (dict_get responses "Cardiologist" "N/A")
                 (dict_get responses "Psychologist" "N/A")
                 (dict_get responses "Pulmonologist" "N/A") = inl e ∨
   ∃ reply,
     team_invoke w (dict_get responses "Cardiologist" "N/A")
                   (dict_get responses "Psychologist" "N/A")
                   (dict_get responses "Pulmonologist" "N/A") = inr reply ∧
     parser_parse reply = inl e) →
  (run_synthesis w responses
     ≫= save_output w report_path output_dir log_file) t
  = (t ++ [EvLog "INFO" "All specialist reports received. Running Multidisciplinary Team...";
           EvSynthesis (dict_get responses "Cardiologist" "N/A")
                       (dict_get responses "Psychologist" "N/A")
                       (dict_get responses "Pulmonologist" "N/A");
           EvLog "ERROR" ("FATAL: The Multidisciplinary Team agent failed: " +:+ str_exn e)],
     SysExit 1).
Proof.
  intros Hkey Hsize Hfail. unfold mbind at 1, M_bind at 1.
  rewrite run_synthesis_spec. change (length specialist_roles) with 3.
  rewrite Hsize. cbv zeta. rewrite (client_error_with_key _ Hkey).
  destruct Hfail as [-> | (reply & -> & ->)]; reflexivity.
Qed.

(** X17. The write of the report has no handler: when the ResultSet has
    three entries, the synthesis succeeds and the write raises, the
    exception leaves [main] after the synthesis call; nothing is recorded
    as written and the closing lines are not logged. *)
Theorem X17_failed_write_is_uncaught
    (w : World) (report_path output_dir log_file : string)
    (responses : gmap string string) (reply : json) (fa : FinalAnalysis)
    (e : exn) (t : list event) :
  falsy (getenv w "OPENAI_API_KEY") = false →
  (size responses <? 3)%nat = false →
  team_invoke w (dict_get responses "Cardiologist" "N/A")
                (dict_get responses "Psychologist" "N/A")
                (dict_get responses "Pulmonologist" "N/A") = inr reply →
  parser_parse reply = inr fa →
  write_file w
    (PyStr.path_join output_dir ("analysis_" +:+ PyStr.basename report_path))
    (format_report fa) = Some e →
  (run_synthesis w responses
     ≫= save_output w report_path output_dir log_file) t
  = (t ++ [EvLog "INFO" "All specialist reports received. Running Multidisciplinary Team...";
           EvSynthesis (dict_get responses "Cardiologist" "N/A")
                       (dict_get responses "Psychologist" "N/A")
                       (dict_get responses "Pulmonologist" "N/A")],
     Raise e).
Proof.
  intros Hkey Hsize Hreply Hparse Hwrite. unfold mbind at 1, M_bind at 1.
  rewrite run_synthesis_spec. change (length specialist_roles) with 3.
  rewrite Hsize. cbv zeta.
  rewrite (client_error_with_key _ Hkey), Hreply, Hparse.
  rewrite save_output_spec. cbv zeta. now rewrite Hwrite.
Qed.

(** X8. The guard of step 3 counts entries and looks at nothing else. On
    a ResultSet with fewer than three entries step 3 logs a critical error
    and exits with status 1 without a synthesis call. On any other
    ResultSet it builds the team and, when its client can be built, makes
    one synthesis call, in which a role that is not a key of the ResultSet
    is passed as "N/A"; when the client raises it makes none. *)
Theorem X8_guard_counts_entries
    (w : World) (responses : gmap string string) :
  List.filter is_synthesis (run_synthesis w responses []).1
  = (if (size responses <? 3)%nat then []
     else
       match client_error (getenv w "OPENAI_API_KEY") with
       | Some _ => []
       | None => [EvSynthesis (dict_get responses "Cardiologist" "N/A")
                              (dict_get responses "Psychologist" "N/A")
                              (dict_get responses "Pulmonologist" "N/A")]
       end) ∧
  ((size responses <? 3)%nat = true →
   run_synthesis w responses []
   = ([EvLog "CRITICAL" "Could not proceed with final analysis as one or more specialist agents failed."],
      SysExit 1)).
Proof.
  rewrite run_synthesis_spec. change (length specialist_roles) with 3.
  destruct (size responses <? 3)%nat; [now split|].
  split; [|discriminate]. cbv zeta.
  destruct (client_error (getenv w "OPENAI_API_KEY")); [reflexivity|].
  destruct (team_invoke w _ _ _) as [e|reply];
    [|destruct (parser_parse reply) as [e|fa]]; reflexivity.
Qed.

End Steps.

(** ** More on the fan-out *)

Section FanOutMore.
Import Agents Main.
Context `{!Libraries}.

(** X9. The ResultSet does not depend on the order in which the calls
    complete: two runs in which the construction of the client and the
    specialist calls settle alike end step 2 alike, with the same
    ResultSet, whatever the two orders of completion are. *)
Theorem X9_result_set_ignores_completion_order
    (w1 w2 : World) (medical_report : string) (t1 t2 : list event) :
  client_error (getenv w1 "OPENAI_API_KEY")
  = client_error (getenv w2 "OPENAI_API_KEY") →
  chain_invoke w1 = chain_invoke w2 →
  Permutation (completion_order w1) [0; 1; 2] →
  Permutation (completion_order w2) [0; 1; 2] →
  (run_specialists w1 medical_report t1).2
  = (run_specialists w2 medical_report t2).2.
Proof.
  intros Hclient Hcalls Hperm1 Hperm2.
  destruct (client_error (getenv w2 "OPENAI_API_KEY")) as [e|] eqn:Hclient2.
  - now rewrite (run_specialists_no_client w1 _ e _ Hclient),
                (run_specialists_no_client w2 _ e _ Hclient2).
  - rewrite (run_specialists_built w1 _ _ Hclient Hperm1),
            (run_specialists_built w2 _ _ Hclient2 Hperm2).
    cbn [snd]. unfold settled.
    destruct (result_of_built w1 medical_report Hclient) as (-> & -> & ->).
    destruct (result_of_built w2 medical_report Hclient2) as (-> & -> & ->).
    now rewrite Hcalls.
Qed.

(** X10. Every call is accounted for in the log of step 2: with the key
    set and each future completing once, the step logs as many errors as
    calls raised, and one line per report received besides the line that
    announces the dispatch. *)
Theorem X10_one_log_line_per_call
    (w : World) (medical_report : string) :
  falsy (getenv w "OPENAI_API_KEY") = false →
  Permutation (completion_order w) [0; 1; 2] →
  let results := map (result_of w medical_report) specialist_roles in
  let trace := (run_specialists w medical_report []).1 in
  length (List.filter (is_log "ERROR") trace)
  = length (List.filter raised results) ∧
  length (List.filter (is_log "INFO") trace)
  = S (length (List.filter (λ r, negb (raised r)) results)).
Proof.
  intros Hkey Hperm. cbv zeta.
  rewrite (run_specialists_spec w _ _ Hkey Hperm). cbn [fst].
  unfold fan_out_events, pool3.
  symmetry in Hperm. apply permutations_Permutation in Hperm.
  vm_compute permutations in Hperm.
  change (map (result_of w medical_report) specialist_roles)
    with [result_of w medical_report "Cardiologist";
          result_of w medical_report "Psychologist";
          result_of w medical_report "Pulmonologist"].
  destruct (result_of w medical_report "Cardiologist"),
           (result_of w medical_report "Psychologist"),
           (result_of w medical_report "Pulmonologist");
    repeat (apply elem_of_cons in Hperm as [->|Hperm]);
    try (now apply elem_of_nil in Hperm); split; reflexivity.
Qed.

Lemma record_one_dom (pool : executor) (future_to_role : gmap nat string)
    (responses : gmap string string) (future : nat) :
  dom (record_one pool future_to_role responses future)
  = match future_to_role !! future, pool !! future with
    | Some role, Some _ => {[role]} ∪ dom responses
    | _, _ => dom responses
    end.
Proof.
  unfold record_one.
  destruct (future_to_role !! future) as [role|];
    [destruct (pool !! future)|]; try reflexivity.
  apply dom_insert_L.
Qed.

(** X11. The collection loop never raises and never exits, for any pool
    and any order of completion: an exception of a call becomes an entry.
    It returns a ResultSet that keeps every key it started with, has the
    role of every future it was yielded, and has no other key. *)
Theorem X11_collect_always_returns
    (pool : executor) (future_to_role : gmap nat string) (order : list nat)
    (responses : gmap string string) (t : list event) :
  ∃ t' responses',
    collect pool future_to_role order responses t = (t', Ret responses') ∧
    dom responses ⊆ dom responses' ∧
    (∀ future role,
       future ∈ order →
       future_to_role !! future = Some role →
       is_Some (pool !! future) →
       role ∈ dom responses') ∧
    (∀ role,
       role ∈ dom responses' →
       role ∈ dom responses ∨
       ∃ future, future ∈ order ∧ future_to_role !! future = Some role).
Proof.
  rewrite collect_spec. eexists _, _. split; [reflexivity|].
  revert responses. induction order as [|future order IH]; intros responses.
  - simpl. split; [done|]. split; [|now left].
    intros future role Hin. now apply elem_of_nil in Hin.
  - simpl foldl.
    destruct (IH (record_one pool future_to_role responses future))
      as (Hkeep & Hhas & Honly).
    pose proof (record_one_dom pool future_to_role responses future) as Hdom.
    split; [|split].
    + etransitivity; [|exact Hkeep]. rewrite Hdom.
      destruct (future_to_role !! future); [destruct (pool !! future)|];
        try reflexivity. apply union_subseteq_r.
    + intros future' role Hin Hrole Hsettled.
      apply elem_of_cons in Hin as [->|Hin]; [|now eauto].
      apply Hkeep. rewrite Hdom, Hrole.
      destruct Hsettled as [result ->].
      now apply elem_of_union_l, elem_of_singleton.
    + intros role Hin. destruct (Honly role Hin) as [Hnow|(future' & ? & ?)].
      * rewrite Hdom in Hnow.
        destruct (future_to_role !! future) as [role'|] eqn:Hrole;
          [destruct (pool !! future)|]; try (now left).
        apply elem_of_union in Hnow as [Hnow|Hnow]; [|now left].
        apply elem_of_singleton in Hnow as ->.
        right. exists future. split; [now left | exact Hrole].
      * right. exists future'. split; [now right | assumption].
Qed.

End FanOutMore.

(** ** More on the report, the paths and the replies *)

Section Texts.
Import Agents Main.
Context `{!Libraries}.

Lemma render_app (l1 l2 : list HealthIssue) :
  render (l1 ++ l2) = render l1 +:+ render l2.
Proof.
  induction l1 as [|issue l1 IH]; [reflexivity|].
  change (render ((issue :: l1) ++ l2))
    with (issue_text issue +:+ render (l1 ++ l2)).
  change (render (issue :: l1)) with (issue_text issue +:+ render l1).
  now rewrite IH, append_assoc.
Qed.

Lemma filter_all {B} (f : B → bool) (l : list B) :
  Forall (λ x, f x = true) l → List.filter f l = l.
Proof.
  induction 1 as [|x l Hx _ IH]; simpl; [reflexivity|]. now rewrite Hx, IH.
Qed.

(** X13. For any number of entries and of primaries, the report is the
    title, then the entries marked primary in the order of the input,
    then the other entries in the order of the input; with no primary, or
    with nothing but primaries, the entries are written in the order of
    the input. *)
Theorem X13_report_primaries_then_others (fa : FinalAnalysis) :
  format_report fa
  = report_title
    +:+ render (List.filter is_primary (analysis fa))
    +:+ render (List.filter non_primary (analysis fa)) ∧
  (∀ flag, Forall (λ issue, is_primary issue = flag) (analysis fa) →
     format_report fa = report_title +:+ render (analysis fa)).
Proof.
  assert (Hsplit : format_report fa
    = report_title
      +:+ render (List.filter is_primary (analysis fa))
      +:+ render (List.filter non_primary (analysis fa)))
    by (now rewrite format_report_render, primary_first, render_app).
  split; [exact Hsplit|].
  intros flag Hflag. rewrite Hsplit. destruct flag.
  - rewrite (filter_all is_primary), (filter_none non_primary).
    + now rewrite append_nil_r.
    + eapply Forall_impl; [exact Hflag|].
      intros issue Hissue. unfold non_primary. now rewrite Hissue.
    + exact Hflag.
  - rewrite (filter_none is_primary), (filter_all non_primary).
    + reflexivity.
    + eapply Forall_impl; [exact Hflag|].
      intros issue Hissue. unfold non_primary. now rewrite Hissue.
    + exact Hflag.
Qed.

Lemma prefix_slash (c : Ascii.ascii) (s : string) :
  String.prefix "/" (String c s) = Ascii.eqb c "/".
Proof. destruct c as [[] [] [] [] [] [] [] []], s; reflexivity. Qed.

Lemma basename_no_slash (p : string) :
  PyStr.contains "/" (PyStr.basename p) = false.
Proof.
  induction p as [|c p IH]; [reflexivity|].
  simpl PyStr.basename.
  destruct (PyStr.contains "/" p) eqn:Hp; [exact IH|].
  destruct (Ascii.eqb c "/") eqn:Hc; [exact Hp|].
  change (PyStr.contains "/" (String c p))
    with (String.prefix "/" (String c p) || PyStr.contains "/" p).
  now rewrite prefix_slash, Hc, Hp.
Qed.

(** What follows the last slash: the path is some directory part, empty
    or ending with a slash, followed by the name. *)
Lemma basename_suffix (p : string) :
  ∃ dir,
    p = dir +:+ PyStr.basename p ∧
    (dir = "" ∨ ∃ dir', dir = dir' +:+ "/").
Proof.
  induction p as [|c p (dir & IH & Hdir)]; [exists ""; now split; [|left]|].
  simpl PyStr.basename.
  destruct (PyStr.contains "/" p) eqn:Hp.
  - exists (String c dir). split.
    + change (String c p = String c (dir +:+ PyStr.basename p)).
      now rewrite <- IH.
    + right. destruct Hdir as [-> | (dir' & ->)].
      * change ("" +:+ PyStr.basename p) with (PyStr.basename p) in IH.
        rewrite IH, basename_no_slash in Hp. discriminate.
      * now exists (String c dir').
  - destruct (Ascii.eqb c "/") eqn:Hc.
    + apply Ascii.eqb_eq in Hc as ->. exists "/". split; [reflexivity|].
      right. now exists "".
    + exists "". split; [reflexivity | now left].
Qed.

(** X14. The name of the output file is "analysis_" followed by what
    follows the last slash of the path of the report: the path is a
    directory part, empty or ending with a slash, followed by a name
    without a slash. So the name of the output file has no slash, and when
    step 4 writes the report, it writes it at [output_dir], one slash
    (none when [output_dir] is empty or ends with one), and this name. *)
Theorem X14_output_file_in_output_dir
    (w : World) (report_path output_dir log_file : string)
    (fa : FinalAnalysis) (t : list event) :
  let name := PyStr.basename report_path in
  let output_path :=
    output_dir
    +:+ (if (String.eqb output_dir "" || PyStr.ends_with_slash output_dir)%bool
         then "" else "/")
    +:+ "analysis_" +:+ name in
  (∃ dir,
     report_path = dir +:+ name ∧ (dir = "" ∨ ∃ dir', dir = dir' +:+ "/")) ∧
  PyStr.contains "/" name = false ∧
  PyStr.contains "/" ("analysis_" +:+ name) = false ∧
  (write_file w output_path (format_report fa) = None →
   ∃ logs,
     save_output w report_path output_dir log_file fa t
     = (t ++ EvWrite output_path (format_report fa) :: logs, Ret tt)).
Proof.
  cbv zeta.
  assert (Hjoin :
    PyStr.path_join output_dir ("analysis_" +:+ PyStr.basename report_path)
    = output_dir
      +:+ (if (String.eqb output_dir "" || PyStr.ends_with_slash output_dir)%bool
           then "" else "/")
      +:+ "analysis_" +:+ PyStr.basename report_path).
  { unfold PyStr.path_join.
    change (String.prefix "/" ("analysis_" +:+ PyStr.basename report_path))
      with false.
    now destruct (String.eqb output_dir "" || PyStr.ends_with_slash output_dir)%bool. }
  split; [apply basename_suffix|].
  split; [apply basename_no_slash|].
  split.
  - pose proof (basename_no_slash report_path) as Hbase.
    remember (PyStr.basename report_path) as name.
    vm_compute. vm_compute in Hbase. exact Hbase.
  - intros Hwrite. rewrite save_output_spec. cbv zeta.
    rewrite Hjoin, Hwrite. eexists. reflexivity.
Qed.

(** X16. [analysis] is a required field: a reply that is a JSON object
    without an [analysis] member, or with a null one, is rejected. *)
Theorem X16_analysis_is_required (members : list (string * json)) :
  py_dict members !! "analysis" = None ∨
  py_dict members !! "analysis" = Some JNull →
  parser_parse (JObj members) = inl (parser_error (JObj members)).
Proof.
  intros Hmissing. unfold parser_parse, FinalAnalysis_parse_obj, required.
  simpl as_dict. simpl mbind at 1.
  now destruct Hmissing as [-> | ->].
Qed.

End Texts.

(** ** The further properties on sample runs *)

Section MoreSamples.
Import Agents Main.
#[local] Existing Instance sample_libraries.

Lemma X1_witness :
  falsy (getenv cardiologist_fails "OPENAI_API_KEY") = false ∧
  read_file cardiologist_fails "absent.txt" = None ∧
  run_main cardiologist_fails "absent.txt" "./results"
  = ([EvMakedirs "./results"; EvLoadDotenv;
      EvLog "ERROR" "FATAL: Input file not found at 'absent.txt'"],
     SysExit 1).
Proof.
  split; [reflexivity|]. split; [reflexivity|].
  exact (X1_missing_report_exits_first cardiologist_fails "absent.txt"
           "./results" eq_refl eq_refl).
Defined.

Lemma X2_witness :
  falsy (getenv cardiologist_fails "OPENAI_API_KEY") = false ∧
  (size (settled cardiologist_fails "chest pain") <? 3)%nat = false ∧
  team_invoke cardiologist_fails
    "AGENT FAILED TO PRODUCE REPORT. REASON: timeout"
    "No acute findings." "No acute findings." = inr three_entries_reply ∧
  parser_parse three_entries_reply = inr three_entries ∧
  write_file cardiologist_fails "./results/analysis_report.txt"
    (format_report three_entries) = None ∧
  run_synthesis cardiologist_fails (settled cardiologist_fails "chest pain") []
  = ([EvLog "INFO" "All specialist reports received. Running Multidisciplinary Team...";
      EvSynthesis "AGENT FAILED TO PRODUCE REPORT. REASON: timeout"
                  "No acute findings." "No acute findings."],
     Ret three_entries).
Proof.
  split; [reflexivity|]. split; [reflexivity|]. split; [reflexivity|].
  split; [reflexivity|]. split; [reflexivity|].
  assert (Hkey : falsy (getenv cardiologist_fails "OPENAI_API_KEY") = false)
    by reflexivity.
  assert (Hsize : (size (settled cardiologist_fails "chest pain") <? 3)%nat = false)
    by reflexivity.
  pose proof (X2_synthesis_then_report cardiologist_fails
                "reports/report.txt" "./results" "./results/analysis.log"
                (settled cardiologist_fails "chest pain")
                three_entries_reply three_entries []
                Hkey Hsize eq_refl eq_refl eq_refl) as [Hrun _].
  vm_compute in Hrun |- *. exact Hrun.
Defined.

Lemma X3_witness :
  falsy (getenv synthesis_fails "OPENAI_API_KEY") = false ∧
  (size (settled synthesis_fails "chest pain") <? 3)%nat = false ∧
  team_invoke synthesis_fails "No acute findings." "No acute findings."
    "No acute findings." = inl (Exception "rate limit") ∧
  (run_synthesis synthesis_fails (settled synthesis_fails "chest pain")
     ≫= save_output synthesis_fails "report.txt" "./results"
          "./results/analysis.log") []
  = ([EvLog "INFO" "All specialist reports received. Running Multidisciplinary Team...";
      EvSynthesis "No acute findings." "No acute findings." "No acute findings.";
      EvLog "ERROR" "FATAL: The Multidisciplinary Team agent failed: rate limit"],
     SysExit 1).
Proof.
  split; [reflexivity|]. split; [reflexivity|]. split; [reflexivity|].
  assert (Hkey : falsy (getenv synthesis_fails "OPENAI_API_KEY") = false)
    by reflexivity.
  assert (Hsize : (size (settled synthesis_fails "chest pain") <? 3)%nat = false)
    by reflexivity.
  pose proof (X3_failed_synthesis_writes_nothing synthesis_fails "report.txt"
                "./results" "./results/analysis.log"
                (settled synthesis_fails "chest pain") (Exception "rate limit")
                [] Hkey Hsize (or_introl eq_refl)) as Hrun.
  vm_compute in Hrun |- *. exact Hrun.
Defined.

Lemma X17_witness :
  falsy (getenv write_fails "OPENAI_API_KEY") = false ∧
  (size (settled write_fails "chest pain") <? 3)%nat = false ∧
  parser_parse three_entries_reply = inr three_entries ∧
  write_file write_fails "./results/analysis_report.txt"
    (format_report three_entries)
  = Some (Exception "[Errno 13] Permission denied") ∧
  (run_synthesis write_fails (settled write_fails "chest pain")
     ≫= save_output write_fails "report.txt" "./results"
          "./results/analysis.log") []
  = ([EvLog "INFO" "All specialist reports received. Running Multidisciplinary Team...";
      EvSynthesis "AGENT FAILED TO PRODUCE REPORT. REASON: timeout"
                  "No acute findings." "No acute findings."],
     Raise (Exception "[Errno 13] Permission denied")).
Proof.
  split; [reflexivity|]. split; [reflexivity|]. split; [reflexivity|].
  split; [reflexivity|].
  assert (Hkey : falsy (getenv write_fails "OPENAI_API_KEY") = false)
    by reflexivity.
  assert (Hsize : (size (settled write_fails "chest pain") <? 3)%nat = false)
    by reflexivity.
  pose proof (X17_failed_write_is_uncaught write_fails "report.txt" "./results"
                "./results/analysis.log" (settled write_fails "chest pain")
                three_entries_reply three_entries
                (Exception "[Errno 13] Permission denied") []
                Hkey Hsize eq_refl eq_refl eq_refl) as Hrun.
  vm_compute in Hrun |- *. exact Hrun.
Defined.

Lemma X8_witness :
  run_synthesis cardiologist_fails ∅ []
  = ([EvLog "CRITICAL" "Could not proceed with final analysis as one or more specialist agents failed."],
     SysExit 1).
Proof. exact (proj2 (X8_guard_counts_entries cardiologist_fails ∅) eq_refl). Defined.

Lemma X9_witness :
  client_error (getenv cardiologist_fails "OPENAI_API_KEY")
  = client_error (getenv cardiologist_fails_in_order "OPENAI_API_KEY") ∧
  chain_invoke cardiologist_fails = chain_invoke cardiologist_fails_in_order ∧
  Permutation (completion_order cardiologist_fails) [0; 1; 2] ∧
  Permutation (completion_order cardiologist_fails_in_order) [0; 1; 2] ∧
  (run_specialists cardiologist_fails "chest pain" []).2
  = (run_specialists cardiologist_fails_in_order "chest pain" []).2.
Proof.
  split; [reflexivity|]. split; [reflexivity|].
  split; [exact sample_order|]. split; [apply Permutation_refl|].
  exact (X9_result_set_ignores_completion_order cardiologist_fails
           cardiologist_fails_in_order "chest pain" [] [] eq_refl
           eq_refl sample_order (Permutation_refl _)).
Defined.

Lemma X10_witness :
  falsy (getenv cardiologist_fails "OPENAI_API_KEY") = false ∧
  Permutation (completion_order cardiologist_fails) [0; 1; 2] ∧
  length (List.filter (is_log "ERROR")
            (run_specialists cardiologist_fails "chest pain" []).1) = 1.
Proof.
  split; [reflexivity|]. split; [exact sample_order|].
  now rewrite (proj1 (X10_one_log_line_per_call cardiologist_fails "chest pain"
                        eq_refl sample_order)).
Defined.

Lemma X13_witness :
  Forall (λ issue, is_primary issue = false) (analysis no_primary) ∧
  format_report no_primary = report_title +:+ render (analysis no_primary).
Proof.
  assert (Hflag : Forall (λ issue, is_primary issue = false) (analysis no_primary))
    by (repeat constructor).
  split; [exact Hflag|].
  exact (proj2 (X13_report_primaries_then_others no_primary) false Hflag).
Defined.

Lemma X14_witness :
  (∃ dir, "reports/2024/report.txt" = dir +:+ "report.txt" ∧
          (dir = "" ∨ ∃ dir', dir = dir' +:+ "/")) ∧
  write_file cardiologist_fails "./results/analysis_report.txt"
    (format_report three_entries) = None ∧
  ∃ logs,
    save_output cardiologist_fails "reports/2024/report.txt" "./results"
      "./results/analysis.log" three_entries []
    = (EvWrite "./results/analysis_report.txt" (format_report three_entries)
         :: logs,
       Ret tt).
Proof.
  pose proof (X14_output_file_in_output_dir cardiologist_fails
                "reports/2024/report.txt" "./results" "./results/analysis.log"
                three_entries []) as (Hname & _ & _ & Hwrite).
  split; [exact Hname|]. split; [reflexivity|].
  exact (Hwrite eq_refl).
Defined.

Lemma X16_witness :
  (py_dict [("diagnoses", JList [])] !! "analysis" = None ∨
   py_dict [("diagnoses", JList [])] !! "analysis" = Some JNull) ∧
  parser_parse no_analysis_reply
  = inl (Exception "Failed to parse FinalAnalysis from completion").
Proof.
  split; [left; reflexivity|].
  exact (X16_analysis_is_required [("diagnoses", JList [])]
           (or_introl eq_refl)).
Defined.

End MoreSamples.
